(** * Relation handlers of the pgbouncer operator

    A shallow embedding of [src/relations/db.py] (class [DbProvides]) and
    [src/relations/backend_database.py] (class [BackendDatabaseRequires]).

    Python objects that the handlers share and mutate (relation databags, the
    peer databag, the pgbouncer configuration file, the list of calls issued to
    the PostgreSQL backend) are fields of one [State]; a handler is a function
    in a small state-and-exception monad, so that a Python exception leaves
    the mutations made before it in place.  Dictionaries are [gmap]s. *)

From Stdlib Require Import String Ascii ZArith List Bool DecimalString Permutation.
From Stdlib Require DecimalPos DecimalZ Sorted.
From stdpp Require Import base decidable option list gmap strings fin_maps.

Local Open Scope string_scope.
Local Open Scope Z_scope.

(** ** Python strings *)

Module Py.

(** [str(x)] for a value that is a [str] or [None]. *)
Definition str (x : option string) : string :=
  match x with
  | Some s => s
  | None => "None"
  end.

(** Truthiness of a value that is a [str] or [None]. *)
Definition truthy (x : option string) : bool :=
  match x with
  | Some (String _ _) => true
  | _ => false
  end.

(** [s.replace("-", "_")]: both strings have one character. *)
Fixpoint replace_dash (s : string) : string :=
  match s with
  | EmptyString => EmptyString
  | String a r =>
      String (if Ascii.eqb a "-"%char then "_"%char else a) (replace_dash r)
  end.

(** [s.split(c)] for a one-character separator: never empty. *)
Fixpoint split (c : ascii) (s : string) : list string :=
  match s with
  | EmptyString => [EmptyString]
  | String a r =>
      if Ascii.eqb a c then EmptyString :: split c r
      else match split c r with
           | h :: t => String a h :: t
           | [] => [String a EmptyString]
           end
  end.

(** [",".join(l)]. *)
Definition join (sep : string) (l : list string) : string := String.concat sep l.

(** [f"{n}"] for an [int]. *)
Definition of_int (n : Z) : string := NilZero.string_of_int (Z.to_int n).

Definition is_space (a : ascii) : bool :=
  let n := nat_of_ascii a in
  ((9 <=? n)%nat && (n <=? 13)%nat) || (28 <=? n)%nat && (n <=? 32)%nat.

Fixpoint lstrip (s : string) : string :=
  match s with
  | String a r => if is_space a then lstrip r else s
  | EmptyString => EmptyString
  end.

Fixpoint rstrip (s : string) : string :=
  match s with
  | EmptyString => EmptyString
  | String a r =>
      match rstrip r with
      | EmptyString => if is_space a then EmptyString else String a EmptyString
      | r' => String a r'
      end
  end.

(** [s.strip()], on the whitespace of the ASCII range. *)
Definition strip (s : string) : string := rstrip (lstrip s).

(** [s.startswith(p)]. *)
Definition startswith (p s : string) : bool := String.prefix p s.

Fixpoint insert_sorted (x : string) (l : list string) : list string :=
  match l with
  | [] => [x]
  | y :: r => if String.leb x y then x :: l else y :: insert_sorted x r
  end.

(** [sorted(l)] on strings. *)
Definition sorted (l : list string) : list string :=
  fold_right insert_sorted [] l.

(** The elements of [set(l)], each once. *)
Fixpoint dedup (l : list string) : list string :=
  match l with
  | [] => []
  | x :: r => if bool_decide (x ∈ r) then dedup r else x :: dedup r
  end.

End Py.

(** ** Data model *)

(** A relation databag: [Dict[str, str]]. *)
Abbreviation Databag := (gmap string string).

(** One entry of the [databases] section of the pgbouncer configuration, as
    the handlers write it. [auth_user] is [None] while the backend user name
    is unknown. *)
Record DatabaseRoute := {
  host : string;
  dbname : string;
  port : string;
  auth_user_of : option string
}.

(** Modelled from the spec: [pgb.PgbConfig] (charms.pgbouncer_k8s.v0.pgb) is
    not among the sources.  The Config Document holds a database route table,
    a user list whose entries carry an admin flag, and pooler-wide
    settings (the [pgbouncer] section). *)
Record PgbConfig := {
  databases : gmap string DatabaseRoute;
  users : gmap string bool;
  pgbouncer : gmap string string
}.

Definition set_databases (f : gmap string DatabaseRoute -> gmap string DatabaseRoute)
    (cfg : PgbConfig) : PgbConfig :=
  {| databases := f (databases cfg); users := users cfg; pgbouncer := pgbouncer cfg |}.

Definition set_pgbouncer (f : gmap string string -> gmap string string)
    (cfg : PgbConfig) : PgbConfig :=
  {| databases := databases cfg; users := users cfg; pgbouncer := f (pgbouncer cfg) |}.

(** Modelled from the spec: [PgbConfig.add_user] inserts a user entry with its
    admin flag. *)
Definition add_user (user : string) (admin : bool) (cfg : PgbConfig) : PgbConfig :=
  {| databases := databases cfg; users := <[user := admin]> (users cfg);
     pgbouncer := pgbouncer cfg |}.

(** Modelled from the spec: [PgbConfig.remove_user] removes the user entry. *)
Definition remove_user (user : string) (cfg : PgbConfig) : PgbConfig :=
  {| databases := databases cfg; users := delete user (users cfg);
     pgbouncer := pgbouncer cfg |}.

(** A client relation ([db] or [db-admin]) as [ops.model.Relation] shows it to
    this unit: [relation.data] has this unit, this application, the remote
    application and the remote units as keys. *)
Record Relation := {
  rel_id : Z;
  rel_name : string;
  local_unit_data : Databag;
  local_app_data : Databag;
  remote_app : option (string * Databag);
  remote_units : gmap string Databag
}.

(** The [backend-database] relation; [backend_app_data] is the databag of the
    remote application, when [relation.data] has one. *)
Record BackendRelation := {
  backend_app_data : option Databag
}.

(** [charms.postgresql_k8s.v0.postgresql.PostgreSQL], as constructed by
    [BackendDatabaseRequires.postgres]. *)
Record PostgreSQL := {
  pg_host : string;
  pg_user : string;
  pg_password : string;
  pg_database : string
}.

(** The values imported from [constants], which is not among the sources. *)
Record Constants := {
  PG : string;
  PGB : string;
  AUTH_FILE_PATH : string;
  PGB_DIR : string
}.

Inductive UnitStatus :=
| ActiveStatus (msg : string)
| BlockedStatus (msg : string)
| MaintenanceStatus (msg : string)
| WaitingStatus (msg : string).

Definition is_active (s : UnitStatus) : bool :=
  match s with ActiveStatus _ => true | _ => false end.

(** What the operator asks of the PostgreSQL backend.  [InstallAuth] and
    [RemoveAuth] are the execution of [pgbouncer-install.sql] and
    [pgbouncer-uninstall.sql] in one database, with the auth role
    substituted. *)
Inductive BackendCall :=
| CreateUser (user password : option string) (admin : bool)
| CreateDatabase (database owner : string)
| DeleteUser (user : option string)
| ConnectToDatabase (database : string)
| InstallAuth (database auth_user : string)
| RemoveAuth (database auth_user : string)
| GetPostgresqlVersion.

(** The calls that change roles, databases or the auth function; connecting
    and reading the version do not. *)
Definition mutating (c : BackendCall) : bool :=
  match c with
  | CreateUser _ _ _ | CreateDatabase _ _ | DeleteUser _
  | InstallAuth _ _ | RemoveAuth _ _ => true
  | ConnectToDatabase _ | GetPostgresqlVersion => false
  end.

Inductive Exn :=
| AttributeError
| IndexError
| KeyError
| TypeError
| FileNotFoundError
| Psycopg2Error
| PostgreSQLCreateUserError
| PostgreSQLCreateDatabaseError
| PostgreSQLDeleteUserError
| PostgreSQLGetPostgreSQLVersionError
| ModelError.

(** The facts a handler reads but never writes while it handles one
    notification: the identity of the unit, its leadership, the charm
    configuration, the state of the backend relation and the answers of the
    collaborators that are not among the sources.  [check_status] is the
    value of [charm.check_status()]; [read_only_endpoints] is the value of
    [backend.get_read_only_endpoints()], a method the handlers call but
    [backend_database.py] does not define, in iteration order;
    [backend_raises] tells which calls the PostgreSQL backend refuses. *)
Record Charm := {
  is_leader : bool;                        (* charm.unit.is_leader() *)
  app_name : string;                       (* charm.app.name *)
  unit_name : string;                      (* charm.unit.name *)
  model_name : string;                     (* model.name *)
  constants : Constants;
  check_status : UnitStatus;               (* charm.check_status() *)
  listen_port : string;                    (* str(charm.config["listen_port"]) *)
  unit_ip : string;                        (* charm.unit_ip *)
  backend_relation : option BackendRelation;
  read_only_endpoints : list string;       (* backend.get_read_only_endpoints() *)
  postgresql_version : string;             (* postgres.get_postgresql_version() *)
  backend_raises : BackendCall -> bool;    (* does this call raise? *)
  password_supply : nat -> string;         (* the n-th pgb.generate_password() *)
  get_hashed_password : string -> string -> string   (* pgb.get_hashed_password *)
}.

(** What the handlers mutate. [pgb_config] is the persisted Config Document
    ([None]: the file does not exist); [calls] lists the calls issued to the
    backend, oldest first; [deferred] and [failed] record [event.defer()] and
    [event.fail()] on the notification being handled. *)
Record State := {
  unit_status : UnitStatus;
  pgb_config : option PgbConfig;
  files : gmap string string;
  peers_app_databag : Databag;
  relations : list Relation;
  calls : list BackendCall;
  generated : nat;
  reloads : nat;
  deferred : bool;
  failed : bool
}.

Definition set_unit_status (v : UnitStatus) (st : State) : State :=
  {| unit_status := v; pgb_config := pgb_config st; files := files st;
     peers_app_databag := peers_app_databag st; relations := relations st;
     calls := calls st; generated := generated st; reloads := reloads st;
     deferred := deferred st; failed := failed st |}.

Definition set_pgb_config (v : option PgbConfig) (st : State) : State :=
  {| unit_status := unit_status st; pgb_config := v; files := files st;
     peers_app_databag := peers_app_databag st; relations := relations st;
     calls := calls st; generated := generated st; reloads := reloads st;
     deferred := deferred st; failed := failed st |}.

Definition set_files (v : gmap string string) (st : State) : State :=
  {| unit_status := unit_status st; pgb_config := pgb_config st; files := v;
     peers_app_databag := peers_app_databag st; relations := relations st;
     calls := calls st; generated := generated st; reloads := reloads st;
     deferred := deferred st; failed := failed st |}.

Definition set_peers_app_databag (v : Databag) (st : State) : State :=
  {| unit_status := unit_status st; pgb_config := pgb_config st; files := files st;
     peers_app_databag := v; relations := relations st;
     calls := calls st; generated := generated st; reloads := reloads st;
     deferred := deferred st; failed := failed st |}.

Definition set_relations (v : list Relation) (st : State) : State :=
  {| unit_status := unit_status st; pgb_config := pgb_config st; files := files st;
     peers_app_databag := peers_app_databag st; relations := v;
     calls := calls st; generated := generated st; reloads := reloads st;
     deferred := deferred st; failed := failed st |}.

Definition set_calls (v : list BackendCall) (st : State) : State :=
  {| unit_status := unit_status st; pgb_config := pgb_config st; files := files st;
     peers_app_databag := peers_app_databag st; relations := relations st;
     calls := v; generated := generated st; reloads := reloads st;
     deferred := deferred st; failed := failed st |}.

Definition set_generated (v : nat) (st : State) : State :=
  {| unit_status := unit_status st; pgb_config := pgb_config st; files := files st;
     peers_app_databag := peers_app_databag st; relations := relations st;
     calls := calls st; generated := v; reloads := reloads st;
     deferred := deferred st; failed := failed st |}.

Definition set_reloads (v : nat) (st : State) : State :=
  {| unit_status := unit_status st; pgb_config := pgb_config st; files := files st;
     peers_app_databag := peers_app_databag st; relations := relations st;
     calls := calls st; generated := generated st; reloads := v;
     deferred := deferred st; failed := failed st |}.

Definition set_deferred (v : bool) (st : State) : State :=
  {| unit_status := unit_status st; pgb_config := pgb_config st; files := files st;
     peers_app_databag := peers_app_databag st; relations := relations st;
     calls := calls st; generated := generated st; reloads := reloads st;
     deferred := v; failed := failed st |}.

Definition set_failed (v : bool) (st : State) : State :=
  {| unit_status := unit_status st; pgb_config := pgb_config st; files := files st;
     peers_app_databag := peers_app_databag st; relations := relations st;
     calls := calls st; generated := generated st; reloads := reloads st;
     deferred := deferred st; failed := v |}.

(** ** The handler monad: state and Python exceptions *)

Inductive Res (A : Type) :=
| Ret (a : A)
| Raise (e : Exn).
Arguments Ret {A} a.
Arguments Raise {A} e.

Definition M (A : Type) : Type := State -> Res A * State.

Definition ret {A} (a : A) : M A := fun st => (Ret a, st).

Definition raise {A} (e : Exn) : M A := fun st => (Raise e, st).

Definition bind {A B} (m : M A) (k : A -> M B) : M B := fun st =>
  match m st with
  | (Ret a, st') => k a st'
  | (Raise e, st') => (Raise e, st')
  end.

(** A property or helper that reads only the [Charm] and may raise. *)
Definition lift {A} (r : Res A) : M A := fun st => (r, st).

Definition get : M State := fun st => (Ret st, st).

Definition modify (f : State -> State) : M unit := fun st => (Ret tt, f st).

(** [try: body except e: handler], for the exceptions [catches] accepts. *)
Definition try_except {A} (body : M A) (catches : Exn -> bool) (handler : Exn -> M A)
    : M A := fun st =>
  match body st with
  | (Raise e, st') => if catches e then handler e st' else (Raise e, st')
  | r => r
  end.

Declare Scope handler_scope.
Delimit Scope handler_scope with handler.
Notation "x <- m ;; k" := (bind m (fun x => k))
  (at level 100, m at next level, right associativity) : handler_scope.
Notation "m ;; k" := (bind m (fun _ => k))
  (at level 100, right associativity) : handler_scope.
Local Open Scope handler_scope.

(** The state a handler leaves and how it ended. *)
Definition exec {A} (m : M A) (st : State) : State := snd (m st).
Definition outcome {A} (m : M A) (st : State) : Res A := fst (m st).

(** ** The charm object

    [charm.py], the [peers] relation and the [pgb] library are not among the
    sources; the handlers use the methods below. *)

Module PgbouncerCharm.
Section Charm.
Context (ch : Charm).

Definition defer : M unit := modify (set_deferred true).

Definition fail : M unit := modify (set_failed true).

Definition set_status (s : UnitStatus) : M unit := modify (set_unit_status s).

(** Modelled from the spec: [charm.read_pgb_config] loads the persisted Config
    Document; it raises [FileNotFoundError] while the document has not been
    created (the backend relation-broken handler catches exactly that). *)
Definition read_pgb_config : M PgbConfig := fun st =>
  match pgb_config st with
  | Some cfg => (Ret cfg, st)
  | None => (Raise FileNotFoundError, st)
  end.

(** Modelled from the spec: [charm.render_pgb_config] persists the whole
    document and, when asked, requests a pooler reload. *)
Definition render_pgb_config (cfg : PgbConfig) (reload_pgbouncer : bool) : M unit :=
  modify (fun st =>
    set_reloads (if reload_pgbouncer then S (reloads st) else reloads st)
      (set_pgb_config (Some cfg) st)).

(** Modelled from the spec: [charm.render_auth_file] overwrites the credential
    file, which lives at [AUTH_FILE_PATH]. *)
Definition render_auth_file (content : string) : M unit :=
  modify (fun st => set_files (<[AUTH_FILE_PATH (constants ch) := content]> (files st)) st).

(** Modelled from the spec: [charm.delete_file] removes the file at [path]. *)
Definition delete_file (path : string) : M unit :=
  modify (fun st => set_files (delete path (files st)) st).

(** Modelled from the spec: [peers.add_user] stores the password in the
    peer-shared store under the user name; [peers.remove_user] removes it. *)
Definition peers_add_user (user password : string) : M unit :=
  modify (fun st => set_peers_app_databag (<[user := password]> (peers_app_databag st)) st).

Definition peers_remove_user (user : string) : M unit :=
  modify (fun st => set_peers_app_databag (delete user (peers_app_databag st)) st).

(** Modelled from the spec: [pgb.generate_password] returns a random password;
    the supply of the charm stands for the randomness, and [generated] counts
    the passwords drawn. *)
Definition generate_password : M string := fun st =>
  (Ret (password_supply ch (generated st)), set_generated (S (generated st)) st).

(** Modelled from the spec: [pgb.parse_dict_to_kv_string] joins the
    [key=value] tokens with spaces, in the order of the fields. *)
Definition parse_dict_to_kv_string (d : list (string * string)) : string :=
  Py.join " " (map (fun kv => fst kv ++ "=" ++ snd kv) d).

(** A call to the backend: it is recorded, and raises [e] when the backend
    refuses it. *)
Definition backend_call (c : BackendCall) (e : Exn) : M unit := fun st =>
  let st' := set_calls (calls st ++ [c]) st in
  if backend_raises ch c then (Raise e, st') else (Ret tt, st').

End Charm.
End PgbouncerCharm.
Import PgbouncerCharm.

(** ** [BackendDatabaseRequires] (backend_database.py) *)

Definition dquote : string := String (ascii_of_nat 34) EmptyString.

Module BackendDatabaseRequires.
Section Backend.
Context (ch : Charm).

(** [charm.update_postgres_endpoints(reload_pgbouncer)]: defined by the charm,
    on top of [DbProvides]; see [Dispatch.charm_update_postgres_endpoints]
    below. *)
Context (charm_update_postgres_endpoints : bool -> M unit).

Definition relation : option BackendRelation := backend_relation ch.

Definition postgres_databag : option Databag :=
  match relation with
  | Some r => backend_app_data r
  | None => None
  end.

Definition postgres : Res (option PostgreSQL) :=
  match relation with
  | None => Ret None
  | Some _ =>
      match postgres_databag with
      | None => Raise AttributeError          (* None.get *)
      | Some databag =>
          match databag !! "endpoints", databag !! "username", databag !! "password" with
          | Some endpoint, Some user, Some password =>
              Ret (Some {| pg_host := hd "" (Py.split ":" endpoint);
                           pg_user := user;
                           pg_password := password;
                           pg_database := PGB (constants ch) |})
          | _, _, _ => Ret None
          end
      end
  end.

Definition auth_user : Res (option string) :=
  match postgres_databag with
  | None => Raise AttributeError              (* None.get *)
  | Some databag =>
      match databag !! "username" with
      | None => Ret None
      | Some username => Ret (Some (Py.replace_dash ("pgbouncer_auth_" ++ username)))
      end
  end.

(** A method call on [self.postgres]: [AttributeError] when the property is
    [None]. *)
Definition postgres_call (c : BackendCall) (e : Exn) : M unit :=
  pg <- lift postgres ;;
  match pg with
  | None => raise AttributeError
  | Some _ => backend_call ch c e
  end.

(** A method call on [self.postgres] whose argument is a property of the
    backend: the receiver is evaluated first, then the argument. *)
Definition postgres_call_with {A} (arg : Res A) (c : A -> BackendCall) (e : Exn)
    : M unit :=
  pg <- lift postgres ;;
  match pg with
  | None => raise AttributeError
  | Some _ => a <- lift arg ;; backend_call ch (c a) e
  end.

(** The body of the loop of [initialise_auth_function] and
    [remove_auth_function]: connect to [dbname], then execute the script with
    [self.auth_user] substituted ([str.replace] rejects [None]). *)
Definition run_auth_script (script : string -> string -> BackendCall) (dbname : string)
    : M unit :=
  postgres_call (ConnectToDatabase dbname) Psycopg2Error ;;
  au <- lift auth_user ;;
  match au with
  | None => raise TypeError
  | Some a => backend_call ch (script dbname a) Psycopg2Error
  end.

Fixpoint for_each {A} (body : A -> M unit) (l : list A) : M unit :=
  match l with
  | [] => ret tt
  | x :: r => body x ;; for_each body r
  end.

Definition initialise_auth_function (dbs : list string) : M unit :=
  for_each (run_auth_script InstallAuth) dbs.

Definition remove_auth_function (dbs : list string) : M unit :=
  for_each (run_auth_script RemoveAuth) dbs.

Definition _on_database_created (username : string) : M unit :=
  set_status (MaintenanceStatus "Initialising backend-database relation") ;;
  if negb (is_leader ch) then ret tt
  else
    pg <- lift postgres ;;
    match pg with
    | None => defer
    | Some _ =>
        plaintext_password <- generate_password ch ;;
        postgres_call_with auth_user
          (fun au => CreateUser au (Some plaintext_password) true)
          PostgreSQLCreateUserError ;;
        initialise_auth_function [PGB (constants ch); PG (constants ch)] ;;
        au <- lift auth_user ;;
        match au with
        | None => raise TypeError
        | Some a =>
            let hashed_password := get_hashed_password ch a plaintext_password in
            render_auth_file ch (dquote ++ a ++ dquote ++ " " ++ dquote
                                 ++ hashed_password ++ dquote) ;;
            cfg <- read_pgb_config ;;
            let cfg := add_user username true cfg in
            let cfg := set_pgbouncer
              <["auth_query" := "SELECT username, password FROM " ++ a ++ ".get_auth($1)"]>
              cfg in
            let cfg := set_pgbouncer <["auth_file" := AUTH_FILE_PATH (constants ch)]> cfg in
            render_pgb_config cfg false ;;
            charm_update_postgres_endpoints true ;;
            set_status (ActiveStatus "backend-database relation initialised.")
        end
    end.

Definition _on_endpoints_changed : M unit :=
  charm_update_postgres_endpoints true.

Definition _on_relation_departed (departing_unit : option string) : M unit :=
  if bool_decide (departing_unit <> Some (unit_name ch)) || negb (is_leader ch) then ret tt
  else
    removed <- try_except
      (remove_auth_function [PGB (constants ch); PG (constants ch)] ;; ret true)
      (fun e => match e with Psycopg2Error => true | _ => false end)
      (fun _ =>
         set_status (BlockedStatus
           "failed to remove auth user when disconnecting from postgres application.") ;;
         fail ;;
         ret false) ;;
    if removed : bool then
      postgres_call_with auth_user DeleteUser PostgreSQLDeleteUserError
    else ret tt.

Definition _on_relation_broken : M unit :=
  cfg <- try_except
    (cfg <- read_pgb_config ;; ret (Some cfg))
    (fun e => match e with FileNotFoundError => true | _ => false end)
    (fun _ => defer ;; ret None) ;;
  match cfg with
  | None => ret tt
  | Some cfg =>
      pg <- lift postgres ;;
      match pg with
      | None => raise AttributeError          (* None.user *)
      | Some pg =>
          let cfg := remove_user (pg_user pg) cfg in
          let cfg := set_pgbouncer (delete "auth_user") cfg in
          let cfg := set_pgbouncer (delete "auth_query") cfg in
          render_pgb_config cfg false ;;
          delete_file (PGB_DIR (constants ch) ++ "/userlist.txt")
      end
  end.

End Backend.
End BackendDatabaseRequires.

(** ** [DbProvides] (db.py) *)

Module DbProvides.
Import BackendDatabaseRequires.
Section Db.
Context (ch : Charm).

(** [self.admin]: the [db-admin] flavour of the relation. *)
Context (admin : bool).

Definition relation_name : string := if admin then "db-admin" else "db".

(** [DbProvides] defines no attribute [relation], and neither does its base
    class [ops.framework.Object]: evaluating [self.relation] raises. *)
Definition relation : Res Relation := Raise AttributeError.

(** The relation object of the notification, found by its id. *)
Definition get_relation (rid : Z) : M Relation := fun st =>
  match find (fun r => rel_id r =? rid) (relations st) with
  | Some r => (Ret r, st)
  | None => (Raise ModelError, st)
  end.

(** [model.relations.get(name, [])]. *)
Definition model_relations (name : string) (st : State) : list Relation :=
  filter (fun r => rel_name r = name) (relations st).

Definition get_databags (rid : Z) : M (list Databag) :=
  r <- get_relation rid ;;
  ret (local_unit_data r :: if is_leader ch then [local_app_data r] else []).

(** [self.get_databags(relation)[0]]. *)
Definition first_databag (rid : Z) : M Databag :=
  databags <- get_databags rid ;;
  match databags with
  | d :: _ => ret d
  | [] => raise IndexError
  end.

(** [databag.update(updates)] after [updates[key] = str(item)]. *)
Definition update_dict (updates : list (string * option string)) (d : Databag) : Databag :=
  fold_left (fun d kv => <[fst kv := Py.str (snd kv)]> d) updates d.

Definition write_databags (updates : list (string * option string)) (r : Relation)
    : Relation :=
  {| rel_id := rel_id r; rel_name := rel_name r;
     local_unit_data := update_dict updates (local_unit_data r);
     local_app_data :=
       if is_leader ch then update_dict updates (local_app_data r) else local_app_data r;
     remote_app := remote_app r; remote_units := remote_units r |}.

Definition update_databags (rid : Z) (updates : list (string * option string)) : M unit :=
  _ <- get_databags rid ;;
  modify (fun st =>
    set_relations
      (map (fun r => if rel_id r =? rid then write_databags updates r else r)
           (relations st)) st).

Definition _generate_username (rid : Z) : string :=
  Py.replace_dash (app_name ch ++ "_user_" ++ Py.of_int rid ++ "_" ++ model_name ch).

Definition _get_state : string := if is_leader ch then "master" else "standby".

Definition _comma_split (s : string) : list string :=
  match s with
  | EmptyString => []
  | _ => filter (fun sub => sub <> EmptyString) (map Py.strip (Py.split "," s))
  end.

(** The [Unit] keys of [relation.data] with their databags: this unit and the
    remote units. *)
Definition unit_entries (r : Relation) : list (string * Databag) :=
  (unit_name ch, local_unit_data r) :: map_to_list (remote_units r).

Definition get_allowed_subnets (rid : Z) : M string :=
  r <- get_relation rid ;;
  let subnets :=
    flat_map (fun e => _comma_split (default "" (snd e !! "egress-subnets")))
      (filter (fun e => negb (Py.startswith (app_name ch) (fst e))) (unit_entries r)) in
  ret (Py.join "," (Py.sorted (Py.dedup subnets))).

(** [unit.app.name]: the part of the unit name before the slash. *)
Definition unit_app (unit : string) : string := hd "" (Py.split "/" unit).

Definition get_allowed_units (rid : Z) : M string :=
  r <- get_relation rid ;;
  ret (Py.join ","
         (Py.sorted (filter (fun u => unit_app u <> app_name ch)
                            (map fst (map_to_list (remote_units r)))))).

(** The first [Application] key of [relation.data] that is not this
    application, or [None]. *)
Definition get_external_app (rid : Z) : M (option string) :=
  r <- get_relation rid ;;
  ret (match remote_app r with
       | Some (name, _) => if bool_decide (name <> app_name ch) then Some name else None
       | None => None
       end).

Definition update_connection_info (rid : Z) (port : option string) : M unit :=
  let port := if Py.truthy port then Py.str port else listen_port ch in
  databag <- first_databag rid ;;
  match databag !! "database", databag !! "user", databag !! "password" with
  | Some database, Some user, Some password =>
      app <- get_external_app rid ;;
      match app with
      | None => raise AttributeError          (* None.name *)
      | Some name =>
          let master_dbconnstr :=
            [("host", "localhost"); ("dbname", database); ("port", port);
             ("user", user); ("password", password);
             ("fallback_application_name", name)] in
          update_databags rid
            [("master", Some (parse_dict_to_kv_string master_dbconnstr));
             ("port", Some port);
             ("host", Some "localhost")]
      end
  | _, _, _ => ret tt
  end.

(** [endpoint.split(":")[i]] on the value of [databag.get("endpoints")]. *)
Definition split_field (endpoint : option string) (i : nat) : Res string :=
  match endpoint with
  | None => Raise AttributeError              (* None.split *)
  | Some e =>
      match nth_error (Py.split ":" e) i with
      | Some x => Ret x
      | None => Raise IndexError
      end
  end.

(** Sequencing of computations that only read the [Charm]. *)
Definition and_then {A B} (r : Res A) (k : A -> Res B) : Res B :=
  match r with
  | Ret a => k a
  | Raise e => Raise e
  end.

(** The dict written for the alias of [dbname]: host and port of the primary
    endpoint. *)
Definition route (endpoint : option string) (dbname : string) : Res DatabaseRoute :=
  and_then (split_field endpoint 0) (fun h =>
  and_then (split_field endpoint 1) (fun p =>
  and_then (auth_user ch) (fun au =>
  Ret {| host := h; dbname := dbname; port := p; auth_user_of := au |}))).

(** The dict written for the standby alias: the hosts of all read-only
    endpoints, the port of the first. *)
Definition standby_route (read_only_endpoints : list string) (database : string)
    : Res DatabaseRoute :=
  let h := Py.join "," (map (fun ep => hd "" (Py.split ":" ep)) read_only_endpoints) in
  and_then (split_field (head read_only_endpoints) 1) (fun p =>
  and_then (auth_user ch) (fun au =>
  Ret {| host := h; dbname := database; port := p; auth_user_of := au |})).

Definition update_postgres_endpoints (rid : Z) (reload_pgbouncer : bool) : M unit :=
  databag <- first_databag rid ;;
  match databag !! "database" with
  | None => ret tt
  | Some database =>
      postgres_endpoint <-
        match postgres_databag ch with
        | None => raise AttributeError        (* None.get *)
        | Some d => ret (d !! "endpoints")
        end ;;
      cfg <- read_pgb_config ;;
      r <- lift (route postgres_endpoint database) ;;
      let cfg := set_databases <[database := r]> cfg in
      let read_only_endpoints := read_only_endpoints ch in
      cfg <-
        (if (0 <? length read_only_endpoints)%nat then
           r <- lift (standby_route read_only_endpoints database) ;;
           ret (set_databases <[database ++ "_standby" := r]> cfg)
         else ret (set_databases (delete (database ++ "_standby")) cfg)) ;;
      cfg <-
        (if admin then
           r <- lift (route postgres_endpoint (PG (constants ch))) ;;
           ret (set_databases <[PG (constants ch) := r]> cfg)
         else ret cfg) ;;
      render_pgb_config cfg reload_pgbouncer
  end.

(** Modelled from the spec: [charm.update_client_connection_info] is defined by
    the charm; it refreshes the connection info this unit publishes on every
    client relation of both flavours. *)
Definition charm_update_client_connection_info : M unit :=
  st <- get ;;
  for_each (fun r => update_connection_info (rel_id r) None)
    (model_relations "db" st ++ model_relations "db-admin" st)%list.

(** The walrus condition of [_on_relation_joined]: the database named by the
    remote application when that name is truthy, else the one named by the
    remote unit. *)
Definition requested_database (remote_app_databag remote_unit_databag : Databag)
    : option string :=
  if Py.truthy (remote_app_databag !! "database")
  then remote_app_databag !! "database"
  else remote_unit_databag !! "database".

(** Lines 231 to 257 of [_on_relation_joined]: what the leader does once the
    credentials are published. *)
Definition provision (user : string) (password database : option string) : M unit :=
  created <- try_except
    (set_status (MaintenanceStatus
       ("initialising database and user for " ++ relation_name ++ " relation")) ;;
     postgres_call ch (CreateUser (Some user) password admin)
       PostgreSQLCreateUserError ;;
     postgres_call ch (CreateDatabase (Py.str database) user)
       PostgreSQLCreateDatabaseError ;;
     set_status (ActiveStatus
       ("database and user for " ++ relation_name ++ " relation created")) ;;
     ret true)
    (fun e => match e with
              | PostgreSQLCreateDatabaseError | PostgreSQLCreateUserError => true
              | _ => false
              end)
    (fun _ =>
       fail ;;
       set_status (BlockedStatus
         ("failed to create database or user for " ++ relation_name)) ;;
       ret false) ;;
  if created : bool then
    initialise_auth_function ch [Py.str database] ;;
    peers_add_user user (Py.str password) ;;
    cfg <- read_pgb_config ;;
    render_pgb_config (add_user user admin cfg) true
  else ret tt.

Definition _on_relation_joined (rid : Z) (remote_unit : string) : M unit :=
  set_status (check_status ch) ;;
  st <- get ;;
  if negb (is_active (unit_status st)) then defer
  else
    r <- get_relation rid ;;
    remote_app_databag <-
      match remote_app r with
      | Some (_, d) => ret d
      | None => raise KeyError
      end ;;
    remote_unit_databag <-
      match remote_units r !! remote_unit with
      | Some d => ret d
      | None => raise KeyError
      end ;;
    let database := requested_database remote_app_databag remote_unit_databag in
    if negb (Py.truthy database) then
      set_status (WaitingStatus "No database name provided in app or unit databag") ;;
      defer
    else if bool_decide (remote_app_databag !! "extensions" <> None)
            || bool_decide (remote_unit_databag !! "extensions" <> None) then
      set_status (BlockedStatus
        "bad relation request - remote app requested extensions, which are unsupported. Please remove this relation.") ;;
      fail
    else
      let user := _generate_username rid in
      password <-
        (if is_leader ch then
           password <- generate_password ch ;;
           ret (Some password)
         else
           st <- get ;;
           let password := peers_app_databag st !! user in
           (if negb (Py.truthy password) then defer else ret tt) ;;
           ret password) ;;
      update_databags rid
        [("user", Some user); ("password", password); ("database", database)] ;;
      if negb (is_leader ch) then ret tt
      else provision user password database.

Definition _on_relation_changed (rid : Z) : M unit :=
  set_status (check_status ch) ;;
  st <- get ;;
  if negb (is_active (unit_status st)) then defer
  else
    databag <- first_databag rid ;;
    match databag !! "database", databag !! "user", databag !! "password" with
    | Some database, Some user, Some password =>
        update_connection_info rid (Some (listen_port ch)) ;;
        update_postgres_endpoints rid true ;;
        allowed_subnets <- get_allowed_subnets rid ;;
        allowed_units <- get_allowed_units rid ;;
        postgres_call ch GetPostgresqlVersion PostgreSQLGetPostgreSQLVersionError ;;
        update_databags rid
          [("allowed-subnets", Some allowed_subnets);
           ("allowed-units", Some allowed_units);
           ("version", Some (postgresql_version ch));
           ("host", Some (unit_ip ch));
           ("user", Some user);
           ("password", Some password);
           ("database", Some database);
           ("state", Some _get_state)]
    | _, _, _ =>
        set_status (WaitingStatus
          "relation not fully initialised - deferring until join_event is complete") ;;
        defer
    end.

(** [self.charm.peers.app_databag[key] = value]. *)
Definition set_peer (key value : string) : M unit :=
  modify (fun st => set_peers_app_databag (<[key := value]> (peers_app_databag st)) st).

Definition _on_relation_departed (rid : Z) (app : string) : M unit :=
  allowed_units <- get_allowed_units rid ;;
  update_databags rid [("allowed-units", Some allowed_units)] ;;
  if bool_decide (app = app_name ch) && is_leader ch then
    self_relation <- lift relation ;;
    set_peer (relation_name ++ "-" ++ Py.of_int (rel_id self_relation)
              ++ "-relation-breaking") "true"
  else ret tt.

(** The name of the breaking flag of relation [rid] in the peer databag. *)
Definition break_flag (rid : Z) : string :=
  relation_name ++ "-" ++ Py.of_int rid ++ "-relation-breaking".

(** The loop of [_on_relation_broken] over the client relations: [delete_db]
    stays [True] unless a relation other than the broken one has the same
    database name in this unit's databag. *)
Fixpoint scan_delete_db (rid : Z) (database : string) (rels : list Relation) : bool :=
  match rels with
  | [] => true
  | r :: rest =>
      if rel_id r =? rid then scan_delete_db rid database rest
      else if bool_decide (local_unit_data r !! "database" = Some database) then false
      else scan_delete_db rid database rest
  end.

Definition _on_relation_broken (rid : Z) : M unit :=
  if negb (is_leader ch) then charm_update_client_connection_info
  else
    st <- get ;;
    if negb (Py.truthy (peers_app_databag st !! break_flag rid)) then
      update_connection_info rid None
    else
      modify (fun st =>
        set_peers_app_databag (delete (break_flag rid) (peers_app_databag st)) st) ;;
      databag <- first_databag rid ;;
      let user : option string := databag !! "user" in
      let database : option string := databag !! "database" in
      pg <- lift (postgres ch) ;;
      match pg, user, database with
      | Some _, Some user, Some database =>
          cfg <- read_pgb_config ;;
          st <- get ;;
          let relations :=
            (model_relations "db" st ++ model_relations "db-admin" st)%list in
          let delete_db := scan_delete_db rid database relations in
          cfg <-
            (if delete_db then
               let cfg := set_databases (delete database) cfg in
               let cfg := set_databases (delete (database ++ "_standby")) cfg in
               remove_auth_function ch [database] ;;
               ret cfg
             else ret cfg) ;;
          let cfg := remove_user user cfg in
          render_pgb_config cfg true ;;
          peers_remove_user user ;;
          try_except
            (postgres_call ch (DeleteUser (Some user)) PostgreSQLDeleteUserError)
            (fun e => match e with PostgreSQLDeleteUserError => true | _ => false end)
            (fun _ => ret tt)
      | _, _, _ => defer
      end.

End Db.
End DbProvides.

(** ** Notifications and their dispatch *)

Module Dispatch.

(** Modelled from the spec: [charm.update_postgres_endpoints] is defined by the
    charm; it republishes the backend endpoints into the Config Document for
    every client relation, of the regular flavour and of the admin one. *)
Definition charm_update_postgres_endpoints (ch : Charm) (reload_pgbouncer : bool) : M unit :=
  st <- get ;;
  BackendDatabaseRequires.for_each
    (fun r => DbProvides.update_postgres_endpoints ch false (rel_id r) reload_pgbouncer)
    (DbProvides.model_relations "db" st) ;;
  BackendDatabaseRequires.for_each
    (fun r => DbProvides.update_postgres_endpoints ch true (rel_id r) reload_pgbouncer)
    (DbProvides.model_relations "db-admin" st).

(** The notifications of the lifecycle host: those of a client relation carry
    the flavour of the [DbProvides] instance that observes them and the id of
    their relation. *)
Inductive Notification :=
| ClientJoined (admin : bool) (rid : Z) (remote_unit : string)
| ClientChanged (admin : bool) (rid : Z)
| ClientDeparted (admin : bool) (rid : Z) (app : string)
| ClientBroken (admin : bool) (rid : Z)
| BackendDatabaseCreated (username : string)
| BackendEndpointsChanged
| BackendDeparted (departing_unit : option string)
| BackendBroken.

Definition handler (ch : Charm) (n : Notification) : M unit :=
  match n with
  | ClientJoined admin rid u => DbProvides._on_relation_joined ch admin rid u
  | ClientChanged admin rid => DbProvides._on_relation_changed ch admin rid
  | ClientDeparted admin rid app => DbProvides._on_relation_departed ch admin rid app
  | ClientBroken admin rid => DbProvides._on_relation_broken ch admin rid
  | BackendDatabaseCreated username =>
      BackendDatabaseRequires._on_database_created ch
        (charm_update_postgres_endpoints ch) username
  | BackendEndpointsChanged =>
      BackendDatabaseRequires._on_endpoints_changed (charm_update_postgres_endpoints ch)
  | BackendDeparted departing_unit =>
      BackendDatabaseRequires._on_relation_departed ch departing_unit
  | BackendBroken => BackendDatabaseRequires._on_relation_broken ch
  end.

(** One notification is handled to completion, with fresh [deferred] and
    [failed] marks; an exception ends the handler and keeps what it had
    written. *)
Definition handle (ch : Charm) (n : Notification) (st : State) : State :=
  exec (handler ch n) (set_failed false (set_deferred false st)).

(** A sequence of notifications; the facts of the charm may differ from one
    notification to the next. *)
Definition run (ns : list (Charm * Notification)) (st : State) : State :=
  fold_left (fun st cn => handle (fst cn) (snd cn) st) ns st.

End Dispatch.

(** ** Concrete deployments, from the examples in the module docstrings *)

Module Examples.

Definition consts : Constants :=
  {| PG := "postgres"; PGB := "pgbouncer";
     AUTH_FILE_PATH := "/var/lib/postgresql/pgbouncer/userlist.txt";
     PGB_DIR := "/var/lib/postgresql/pgbouncer" |}.

(** The remote application databag of the backend relation (id 3). *)
Definition backend_databag : Databag :=
  <["endpoints" := "10.180.162.236:5432"]>
  (<["password" := "yPEgUWCYX0SBxpvC"]>
  (<["username" := "relation-3"]>
  (<["version" := "12.12"]> ∅))).

Definition charm (leader : bool) (app : string) (backend : option BackendRelation)
    (replicas : list string) : Charm :=
  {| is_leader := leader;
     app_name := app;
     unit_name := app ++ "/0";
     model_name := "test-db-admin-3una";
     constants := consts;
     check_status := ActiveStatus "";
     listen_port := "6432";
     unit_ip := "10.180.162.4";
     backend_relation := backend;
     read_only_endpoints := replicas;
     postgresql_version := "12.12";
     backend_raises := fun _ => false;
     password_supply := fun n => "T6NX0iz1ZRHZF5kfYDanKM5" ++ Py.of_int (Z.of_nat n);
     get_hashed_password := fun user password => "md5(" ++ password ++ user ++ ")" |}.

Definition ready_backend : option BackendRelation :=
  Some {| backend_app_data := Some backend_databag |}.

Definition leader : Charm := charm true "pgbouncer" ready_backend [].
Definition follower : Charm := charm false "pgbouncer" ready_backend [].

(** A client relation right after it was established: the remote unit asks
    for the database [cli]. *)
Definition client (id : Z) (name : string) (unit_data : Databag) : Relation :=
  {| rel_id := id; rel_name := name;
     local_unit_data := unit_data; local_app_data := ∅;
     remote_app := Some ("psql", ∅);
     remote_units := {[ "psql/0" := {[ "database" := "cli" ]} ]} |}.

Definition empty_config : PgbConfig :=
  {| databases := ∅; users := ∅; pgbouncer := {[ "listen_port" := "6432" ]} |}.

Definition state (cfg : option PgbConfig) (peers : Databag) (rels : list Relation) : State :=
  {| unit_status := ActiveStatus ""; pgb_config := cfg; files := ∅;
     peers_app_databag := peers; relations := rels; calls := [];
     generated := 0; reloads := 0; deferred := false; failed := false |}.

(** One fresh [db-admin] relation with id 4, nothing published yet. *)
Definition fresh : State := state (Some empty_config) ∅ [client 4 "db-admin" ∅].

(** The same operator code deployed under another application name. *)
Definition renamed : Charm := charm false "pgbouncer-k8s" ready_backend [].


(** A leader without backend relation. *)
Definition no_backend : Charm := charm true "pgbouncer" None [].

Definition cli_user : string := "pgbouncer_user_4_test_db_admin_3una".

(** What the unit has published on relation 4 once the join is complete. *)
Definition cli_data : Databag :=
  <["user" := cli_user]>
  (<["password" := "T6NX0iz1ZRHZF5kfYDanKM5z"]>
  (<["database" := "cli"]> ∅)).

Definition cli_route (alias_host : string) : DatabaseRoute :=
  {| host := alias_host; dbname := "cli"; port := "5432";
     auth_user_of := Some "pgbouncer_auth_relation_3" |}.

Definition serving_config : PgbConfig :=
  {| databases :=
       <["cli" := cli_route "10.180.162.236"]>
       (<["cli_standby" := cli_route "10.180.162.203"]> ∅);
     users := {[ cli_user := true ]};
     pgbouncer := {[ "listen_port" := "6432" ]} |}.

(** Relation 4 is served and nothing announces its removal. *)
Definition serving : State :=
  state (Some serving_config) {[ cli_user := "T6NX0iz1ZRHZF5kfYDanKM5z" ]}
    [client 4 "db-admin" cli_data].

(** Relation 4 is being removed (its breaking flag is set) while relation 5,
    of the regular flavour, uses the same database. *)
Definition shared : State :=
  state (Some serving_config)
    (<["db-admin-4-relation-breaking" := "true"]>
       {[ cli_user := "T6NX0iz1ZRHZF5kfYDanKM5z" ]})
    [client 4 "db-admin" cli_data; client 5 "db" {[ "database" := "cli" ]}].

(** A follower handles the whole life of relation 4 and the events of the
    backend. *)
Definition follower_life : list (Charm * Dispatch.Notification) :=
  [(follower, Dispatch.BackendDatabaseCreated "relation-3");
   (follower, Dispatch.ClientJoined true 4 "psql/0");
   (follower, Dispatch.ClientChanged true 4);
   (follower, Dispatch.BackendEndpointsChanged);
   (follower, Dispatch.ClientDeparted true 4 "psql");
   (follower, Dispatch.ClientBroken true 4);
   (follower, Dispatch.BackendDeparted (Some "pgbouncer/0"));
   (follower, Dispatch.BackendBroken)].

(** The backend relation is established, then removed, on the leader. *)
Definition backend_life : list (Charm * Dispatch.Notification) :=
  [(leader, Dispatch.BackendDatabaseCreated "relation-3");
   (leader, Dispatch.BackendBroken)].

End Examples.

(** ** Vocabulary of the properties *)

(** The relation object with id [rid], as the handlers find it. *)
Definition relation_of (rid : Z) (st : State) : option Relation :=
  find (fun r => rel_id r =? rid) (relations st).

(** What this unit publishes under [key] in its own databag of relation
    [rid]. *)
Definition published (rid : Z) (key : string) (st : State) : option string :=
  match relation_of rid st with
  | Some r => local_unit_data r !! key
  | None => None
  end.

(** A join notification that gets past the guards of [_on_relation_joined]:
    the unit is active, the relation and the databags of the remote
    application and unit exist, a database is requested and no extension is. *)
Definition join_accepted (ch : Charm) (rid : Z) (remote_unit : string) (st : State)
    : Prop :=
  is_active (check_status ch) = true /\
  exists r app app_data unit_data,
    relation_of rid st = Some r /\
    remote_app r = Some (app, app_data) /\
    remote_units r !! remote_unit = Some unit_data /\
    Py.truthy (DbProvides.requested_database app_data unit_data) = true /\
    app_data !! "extensions" = None /\
    unit_data !! "extensions" = None.

(** What [update_connection_info] writes once the databag is populated. *)
Definition connection_updates (port database user password name : string)
    : list (string * option string) :=
  [("master",
    Some (parse_dict_to_kv_string
            [("host", "localhost"); ("dbname", database); ("port", port);
             ("user", user); ("password", password);
             ("fallback_application_name", name)]));
   ("port", Some port);
   ("host", Some "localhost")].

(** The alias of the read-only endpoints of [database]. *)
Definition standby_alias (database : string) : string := database ++ "_standby".

(** The changes [update_postgres_endpoints] makes to the route table for the
    database [database], given the value of [endpoints] in the backend
    databag: the alias of the database, then its standby alias (written when
    there are read-only endpoints, removed when there are none), then the
    alias of the root database for the admin flavour. *)
Definition republish (ch : Charm) (admin : bool) (database : string)
    (endpoint : option string)
    : Res (gmap string DatabaseRoute -> gmap string DatabaseRoute) :=
  DbProvides.and_then (DbProvides.route ch endpoint database) (fun r =>
  DbProvides.and_then
    (if (0 <? length (read_only_endpoints ch))%nat then
       DbProvides.and_then
         (DbProvides.standby_route ch (read_only_endpoints ch) database)
         (fun s => Ret (insert (standby_alias database) s))
     else Ret (delete (standby_alias database))) (fun standby =>
  DbProvides.and_then
    (if admin then
       DbProvides.and_then (DbProvides.route ch endpoint (PG (constants ch)))
         (fun p => Ret (insert (PG (constants ch)) p))
     else Ret (fun dbs => dbs)) (fun root =>
  Ret (fun dbs => root (standby (<[database := r]> dbs)))))).



(** The client links of both flavours, in the order [_on_relation_broken]
    scans them. *)
Definition client_links (st : State) : list Relation :=
  (DbProvides.model_relations "db" st ++ DbProvides.model_relations "db-admin" st)%list.

(** Some client link other than [rid] names [database] in the databag of this
    unit. *)
Definition referenced_elsewhere (rid : Z) (database : string) (links : list Relation)
    : Prop :=
  exists r, r ∈ links /\ rel_id r <> rid /\ local_unit_data r !! "database" = Some database.

(** The backend is there and lets the auth function be removed from
    [database]. *)
Definition backend_available (ch : Charm) (database : string) : Prop :=
  (exists pg, BackendDatabaseRequires.postgres ch = Ret (Some pg)) /\
  backend_raises ch (ConnectToDatabase database) = false /\
  forall a, backend_raises ch (RemoveAuth database a) = false.

(** [follows R m]: whatever [m] does and however it ends, the state it leaves
    is related by [R] to the state it started from. *)
Definition follows (R : relation State) {A} (m : M A) : Prop :=
  forall st, R st (snd (m st)).

(** With [same proj] for [R], the part [proj] of the state is unchanged. *)
Definition same {X} (proj : State -> X) : relation State :=
  fun st st' => proj st' = proj st.

(** The calls issued between two states only read from the backend: none
    creates or deletes a role or a database, none touches the auth function. *)
Definition only_reads : relation State :=
  fun st st' =>
    exists l, calls st' = (calls st ++ l)%list /\ Forall (fun c => mutating c = false) l.

(** The application-scoped databags this side holds on the client relations,
    in the order of the relations. *)
Definition app_databags (st : State) : list Databag :=
  map local_app_data (relations st).

(** What a relation is, apart from the two databags this side may write: its
    id, its name and the databags of the remote application and units. *)
Definition remote_view (r : Relation) : Z * string * option (string * Databag) * gmap string Databag :=
  (rel_id r, rel_name r, remote_app r, remote_units r).

Definition remote_side (st : State) :=
  map remote_view (relations st).

(** A join notification on relation [rid] from [remote_unit]: the relation
    and the databags of the remote application and unit exist. *)
Definition join_event (rid : Z) (remote_unit : string) (st : State)
    (app_data unit_data : Databag) : Prop :=
  exists r app,
    relation_of rid st = Some r /\
    remote_app r = Some (app, app_data) /\
    remote_units r !! remote_unit = Some unit_data.

(** The join asks for the database [database], and for no extension, while
    the unit is active. *)
Definition join_requests (ch : Charm) (rid : Z) (remote_unit : string) (st : State)
    (database : string) : Prop :=
  is_active (check_status ch) = true /\
  database <> "" /\
  exists app_data unit_data,
    join_event rid remote_unit st app_data unit_data /\
    DbProvides.requested_database app_data unit_data = Some database /\
    app_data !! "extensions" = None /\
    unit_data !! "extensions" = None.

(** Nothing was published, provisioned or persisted between two states. *)
Definition nothing_provisioned (st st' : State) : Prop :=
  relations st' = relations st /\
  pgb_config st' = pgb_config st /\
  peers_app_databag st' = peers_app_databag st /\
  files st' = files st /\
  calls st' = calls st /\
  generated st' = generated st.

(** What this unit publishes under [key] in the application-scoped databag of
    relation [rid]. *)
Definition published_app (rid : Z) (key : string) (st : State) : option string :=
  match relation_of rid st with
  | Some r => local_app_data r !! key
  | None => None
  end.

(** The backend relation is ready and the auth role is [role]. *)
Definition backend_ready (ch : Charm) (role : string) : Prop :=
  (exists pg, BackendDatabaseRequires.postgres ch = Ret (Some pg)) /\
  BackendDatabaseRequires.auth_user ch = Ret (Some role).

(** The backend accepts every call of [l]. *)
Definition accepts (ch : Charm) (l : list BackendCall) : Prop :=
  Forall (fun c => backend_raises ch c = false) l.

(** The calls one pass of the auth script over [dbs] issues: a connection
    and one execution per database, in order. *)
Definition auth_calls (script : string -> string -> BackendCall) (role : string)
    (dbs : list string) : list BackendCall :=
  flat_map (fun db => [ConnectToDatabase db; script db role]) dbs.

(** The state after the calls [l] were issued. *)
Definition issued (l : list BackendCall) (st : State) : State :=
  set_calls (calls st ++ l) st.

(** The leader handles relation-broken for a relation whose breaking flag is
    set and whose unit databag names the user [user] and the database
    [database]. *)
Definition teardown_requested (ch : Charm) (admin : bool) (rid : Z) (st : State)
    (user database : string) : Prop :=
  is_leader ch = true /\
  Py.truthy (peers_app_databag st !! DbProvides.break_flag admin rid) = true /\
  published rid "user" st = Some user /\
  published rid "database" st = Some database.

(** The keys [update_connection_info] writes. *)
Definition connection_keys : list string := ["master"; "port"; "host"].

(** The port [update_connection_info] publishes: the one it is given when
    that is truthy, else the configured [listen_port]. *)
Definition effective_port (ch : Charm) (port : option string) : string :=
  if Py.truthy port then Py.str port else listen_port ch.

(** The link [rid] is initialised: its unit databag names database, user and
    password, and the relation has a remote application [app]. *)
Definition link_initialised (ch : Charm) (rid : Z) (st : State)
    (database user password app : string) : Prop :=
  published rid "database" st = Some database /\
  published rid "user" st = Some user /\
  published rid "password" st = Some password /\
  app <> app_name ch /\
  exists r app_data, relation_of rid st = Some r /\ remote_app r = Some (app, app_data).

(** Each of [facts] that was published on relation [rid] still is. *)
Definition keeps_published (rid : Z) (facts : list (string * string)) : relation State :=
  fun st st' =>
    forall key value, In (key, value) facts ->
      published rid key st = Some value -> published rid key st' = Some value.

(** The string has a dash. *)
Fixpoint has_dash (s : string) : bool :=
  match s with
  | EmptyString => false
  | String a r => Ascii.eqb a "-"%char || has_dash r
  end.

(** What republishing the endpoints leaves alone: everything but the route
    table, the unit status and the count of reloads. *)
Definition beside_routes (st : State) :=
  (calls st, files st, generated st, peers_app_databag st, relations st,
   users <$> pgb_config st, pgbouncer <$> pgb_config st).

(** The line of the credential file for [role]. *)
Definition auth_file_line (ch : Charm) (role password : string) : string :=
  dquote ++ role ++ dquote ++ " " ++ dquote
  ++ get_hashed_password ch role password ++ dquote.

(** The calls of [_on_database_created]: the auth role is created as an
    admin, then the auth function is installed in the operator's database and
    in the root database. *)
Definition bootstrap_calls (ch : Charm) (role password : string) : list BackendCall :=
  CreateUser (Some role) (Some password) true
  :: auth_calls InstallAuth role [PGB (constants ch); PG (constants ch)].

(** The remote units [get_allowed_units] lets in: those of another
    application. *)
Definition allowed_units (ch : Charm) (r : Relation) : list string :=
  Py.sorted (filter (fun u => DbProvides.unit_app u <> app_name ch)
                    (map fst (map_to_list (remote_units r)))).

(** The subnets [get_allowed_subnets] collects: the entries of
    [egress-subnets] of the units whose name does not start with the name of
    this application. *)
Definition advertised_subnets (ch : Charm) (r : Relation) : list string :=
  flat_map (fun e => DbProvides._comma_split (default "" (snd e !! "egress-subnets")))
    (filter (fun e => negb (Py.startswith (app_name ch) (fst e)))
            (DbProvides.unit_entries ch r)).

Definition allowed_subnets (ch : Charm) (r : Relation) : list string :=
  Py.sorted (Py.dedup (advertised_subnets ch r)).


(** ** Further scenarios *)

Module Scenarios.

(** The charm [ch] in front of a backend that refuses the calls [refuses]
    selects. *)
Definition refusing (refuses : BackendCall -> bool) (ch : Charm) : Charm :=
  {| is_leader := is_leader ch;
     app_name := app_name ch;
     unit_name := unit_name ch;
     model_name := model_name ch;
     constants := constants ch;
     check_status := check_status ch;
     listen_port := listen_port ch;
     unit_ip := unit_ip ch;
     backend_relation := backend_relation ch;
     read_only_endpoints := read_only_endpoints ch;
     postgresql_version := postgresql_version ch;
     backend_raises := refuses;
     password_supply := password_supply ch;
     get_hashed_password := get_hashed_password ch |}.


Definition connection_to (database : string) (c : BackendCall) : bool :=
  match c with ConnectToDatabase db => String.eqb db database | _ => false end.

(** The auth role of [Examples.ready_backend]. *)
Definition auth_role : string := "pgbouncer_auth_relation_3".

Definition cli_password : string := "T6NX0iz1ZRHZF5kfYDanKM5z".



(** Relation 4 is fresh on this unit while the peer-shared store already
    holds the password the leader drew for it. *)
Definition password_shared : State :=
  Examples.state (Some Examples.empty_config) {[ Examples.cli_user := cli_password ]}
    [Examples.client 4 "db-admin" ∅].

(** Relation 4 is being removed and no other link uses its database. *)
Definition last_link : State :=
  Examples.state (Some Examples.serving_config)
    (<["db-admin-4-relation-breaking" := "true"]> {[ Examples.cli_user := cli_password ]})
    [Examples.client 4 "db-admin" Examples.cli_data].

(** The Config Document has not been written yet. *)
Definition unconfigured : State := Examples.state None ∅ [].

(** Relation 6 has two units of the client application and, as
    [relation.units] never does in a deployment, one whose name is that of
    this application; two of them advertise subnets. *)
Definition crowded : Relation :=
  {| rel_id := 6; rel_name := "db";
     local_unit_data := Examples.cli_data; local_app_data := ∅;
     remote_app := Some ("psql", ∅);
     remote_units :=
       <["psql/1" := {[ "egress-subnets" := "10.0.0.2/32, 10.0.0.1/32" ]}]>
       (<["psql/0" := {[ "egress-subnets" := " 10.0.0.1/32,," ]}]>
       {[ "pgbouncer/1" := {[ "egress-subnets" := "10.0.0.9/32" ]} ]}) |}.

Definition crowd : State :=
  Examples.state (Some Examples.serving_config) ∅ [crowded].

End Scenarios.

(** * Properties *)

(** ** What a handler leaves alone *)

#[global] Instance same_preorder {X} (proj : State -> X) : PreOrder (same proj).
Proof. split; unfold same; [intros ?|intros ???]; congruence. Qed.

#[global] Instance only_reads_preorder : PreOrder only_reads.
Proof.
  split.
  - intros st. exists []. split; [symmetry; apply app_nil_r | constructor].
  - intros s1 s2 s3 (l1 & E1 & F1) (l2 & E2 & F2). exists (l1 ++ l2)%list. split.
    + rewrite E2, E1. symmetry. apply app_assoc.
    + apply Forall_app; auto.
Qed.

Lemma only_reads_same_calls st st' : calls st' = calls st -> only_reads st st'.
Proof. intros E. exists []. split; [rewrite E; symmetry; apply app_nil_r | constructor]. Qed.

Section Follows.
Context (R : relation State) `{!PreOrder R}.

Lemma follows_ret {A} (a : A) : follows R (ret a).
Proof. intros st. simpl. reflexivity. Qed.

Lemma follows_raise {A} (e : Exn) : follows R (@raise A e).
Proof. intros st. simpl. reflexivity. Qed.

Lemma follows_lift {A} (r : Res A) : follows R (lift r).
Proof. intros st. simpl. reflexivity. Qed.

Lemma follows_get : follows R get.
Proof. intros st. simpl. reflexivity. Qed.

Lemma follows_modify (f : State -> State) :
  (forall st, R st (f st)) -> follows R (modify f).
Proof. intros Hf st. apply Hf. Qed.

Lemma follows_bind {A B} (m : M A) (k : A -> M B) :
  follows R m -> (forall a, follows R (k a)) -> follows R (bind m k).
Proof.
  intros Hm Hk st. unfold bind. specialize (Hm st).
  destruct (m st) as [[a|e] st1]; simpl in *.
  - etransitivity; [exact Hm | apply Hk].
  - exact Hm.
Qed.

Lemma follows_try_except {A} (body : M A) catches (handler : Exn -> M A) :
  follows R body -> (forall e, follows R (handler e)) ->
  follows R (try_except body catches handler).
Proof.
  intros Hb Hh st. unfold try_except. specialize (Hb st).
  destruct (body st) as [[a|e] st1]; simpl in *; [exact Hb|].
  destruct (catches e); simpl; [|exact Hb].
  etransitivity; [exact Hb | apply Hh].
Qed.

Lemma follows_for_each {A} (body : A -> M unit) (l : list A) :
  (forall x, follows R (body x)) ->
  follows R (BackendDatabaseRequires.for_each body l).
Proof.
  intros Hb. induction l as [|x l IH]; simpl.
  - apply follows_ret.
  - apply follows_bind; auto.
Qed.

Lemma follows_read_pgb_config : follows R read_pgb_config.
Proof.
  intros st. unfold read_pgb_config. destruct (pgb_config st); simpl; reflexivity.
Qed.

Lemma follows_get_relation rid : follows R (DbProvides.get_relation rid).
Proof.
  intros st. unfold DbProvides.get_relation. destruct (find _ _); simpl; reflexivity.
Qed.

End Follows.

(** A state update that leaves the part of the state at stake untouched. *)
Ltac frame_update :=
  first [ reflexivity
        | hnf; reflexivity
        | apply only_reads_same_calls; reflexivity ].

Lemma follows_backend_call_same {X} (proj : State -> X) ch c e :
  (forall v st, proj (set_calls v st) = proj st) ->
  follows (same proj) (backend_call ch c e).
Proof.
  intros Hp st. unfold backend_call, same.
  destruct (backend_raises ch c); simpl; apply Hp.
Qed.

(** One step of a proof that a handler follows [R]: go by the shape of the
    handler. *)
Ltac follows_step :=
  match goal with
  | |- follows _ (bind _ _) => apply follows_bind; [ typeclasses eauto | | intros ?]
  | |- follows _ (ret _) => apply follows_ret; typeclasses eauto
  | |- follows _ (raise _) => apply follows_raise; typeclasses eauto
  | |- follows _ (lift _) => apply follows_lift; typeclasses eauto
  | |- follows _ get => apply follows_get; typeclasses eauto
  | |- follows _ read_pgb_config => apply follows_read_pgb_config; typeclasses eauto
  | |- follows _ (DbProvides.get_relation _) =>
      apply follows_get_relation; typeclasses eauto
  | |- follows _ (try_except _ _ _) =>
      apply follows_try_except; [ typeclasses eauto | | intros ?]
  | |- follows _ (BackendDatabaseRequires.for_each _ _) =>
      apply follows_for_each; [ typeclasses eauto | intros ?]
  | |- follows _ (modify _) => apply follows_modify; intros ?; frame_update
  | |- follows (same _) (backend_call _ _ _) =>
      apply follows_backend_call_same; intros; reflexivity
  | |- follows _ (if ?b then _ else _) => destruct b
  | |- follows _ (match ?x with _ => _ end) => destruct x
  end.

Ltac unfold_handlers :=
  unfold DbProvides._on_relation_joined, DbProvides._on_relation_changed,
    DbProvides._on_relation_departed, DbProvides._on_relation_broken,
    BackendDatabaseRequires._on_database_created,
    BackendDatabaseRequires._on_endpoints_changed,
    BackendDatabaseRequires._on_relation_departed,
    BackendDatabaseRequires._on_relation_broken,
    Dispatch.charm_update_postgres_endpoints,
    DbProvides.charm_update_client_connection_info,
    DbProvides.update_connection_info, DbProvides.update_postgres_endpoints,
    DbProvides.update_databags, DbProvides.get_databags, DbProvides.first_databag,
    DbProvides.get_allowed_subnets, DbProvides.get_allowed_units,
    DbProvides.get_external_app,
    DbProvides.set_peer, DbProvides.provision, BackendDatabaseRequires.postgres_call,
    BackendDatabaseRequires.postgres_call_with,
    BackendDatabaseRequires.initialise_auth_function,
    BackendDatabaseRequires.remove_auth_function,
    BackendDatabaseRequires.run_auth_script,
    set_status, defer, fail, render_pgb_config, render_auth_file, delete_file,
    peers_add_user, peers_remove_user.

(** ** Leader-only mutation *)

Section LeaderOnly.
Context (ch : Charm) (not_leader : is_leader ch = false).

Lemma backend_call_only_reads c e :
  mutating c = false -> follows only_reads (backend_call ch c e).
Proof.
  intros Hc st. exists [c]. unfold backend_call.
  destruct (backend_raises ch c); simpl; split; auto.
Qed.

Lemma follower_handler_only_reads n : follows only_reads (Dispatch.handler ch n).
Proof.
  destruct n; simpl; unfold_handlers;
    rewrite ?not_leader, ?orb_true_r, ?andb_false_r; simpl;
    repeat first
      [ follows_step
      | apply backend_call_only_reads; reflexivity
      | progress unfold_handlers ].
Qed.

End LeaderOnly.

Lemma follower_handle_only_reads ch n st :
  is_leader ch = false -> only_reads st (Dispatch.handle ch n st).
Proof.
  intros Hl. unfold Dispatch.handle, exec.
  transitivity (set_failed false (set_deferred false st)).
  - apply only_reads_same_calls. reflexivity.
  - apply follower_handler_only_reads, Hl.
Qed.

(** C2: a process that is not the leader issues no call that creates or
    deletes a role or a database, or installs or removes the auth function,
    whatever the sequence of notifications it handles: the calls it adds to
    those already issued are all reads. *)
Theorem C2_leader_only_mutation (ns : list (Charm * Dispatch.Notification)) (st : State) :
  Forall (fun cn => is_leader (fst cn) = false) ns ->
  exists issued,
    calls (Dispatch.run ns st) = (calls st ++ issued)%list /\
    Forall (fun c => mutating c = false) issued.
Proof.
  intros Hns. change (only_reads st (Dispatch.run ns st)).
  revert st. induction Hns as [|[ch n] ns Hl _ IH]; intros st; simpl.
  - reflexivity.
  - etransitivity; [apply follower_handle_only_reads, Hl | apply IH].
Qed.

(** ** Client join *)

Lemma find_update (rid : Z) (f : Relation -> Relation) (rels : list Relation) r :
  (forall x, rel_id (f x) = rel_id x) ->
  find (fun r => rel_id r =? rid) rels = Some r ->
  find (fun r => rel_id r =? rid)
       (map (fun r => if rel_id r =? rid then f r else r) rels) = Some (f r).
Proof.
  intros Hid. induction rels as [|x rels IH]; simpl; [discriminate|].
  destruct (rel_id x =? rid) eqn:E; simpl.
  - intros [= ->]. rewrite Hid, E. reflexivity.
  - rewrite E. exact IH.
Qed.

Lemma update_databags_run ch rid updates st r :
  find (fun r => rel_id r =? rid) (relations st) = Some r ->
  DbProvides.update_databags ch rid updates st =
    (Ret tt,
     set_relations
       (map (fun r => if rel_id r =? rid then DbProvides.write_databags ch updates r else r)
            (relations st)) st).
Proof.
  intros Hr. unfold DbProvides.update_databags, DbProvides.get_databags, bind,
    DbProvides.get_relation. rewrite Hr. reflexivity.
Qed.

Lemma update_databags_missing ch rid updates st :
  find (fun r => rel_id r =? rid) (relations st) = None ->
  DbProvides.update_databags ch rid updates st = (Raise ModelError, st).
Proof.
  intros Hr. unfold DbProvides.update_databags, DbProvides.get_databags, bind,
    DbProvides.get_relation. rewrite Hr. reflexivity.
Qed.

(** C10: on a join handled by a non-leader whose peer-shared store has no
    password for the derived user name, the handler defers and goes on: it
    ends normally having written user, password and database into the
    unit-scoped databag (and only there), the password being the string
    [None]. *)
Theorem C10_follower_join_publishes_None
    (ch : Charm) (admin : bool) (rid : Z) (remote_unit : string) (st : State)
    (r : Relation) (app : string) (app_data unit_data : Databag) (database : string) :
  is_leader ch = false ->
  is_active (check_status ch) = true ->
  find (fun r => rel_id r =? rid) (relations st) = Some r ->
  remote_app r = Some (app, app_data) ->
  remote_units r !! remote_unit = Some unit_data ->
  DbProvides.requested_database app_data unit_data = Some database ->
  database <> "" ->
  app_data !! "extensions" = None ->
  unit_data !! "extensions" = None ->
  peers_app_databag st !! DbProvides._generate_username ch rid = None ->
  let st' := exec (DbProvides._on_relation_joined ch admin rid remote_unit) st in
  outcome (DbProvides._on_relation_joined ch admin rid remote_unit) st = Ret tt /\
  deferred st' = true /\
  generated st' = generated st /\
  calls st' = calls st /\
  exists r',
    find (fun r => rel_id r =? rid) (relations st') = Some r' /\
    local_unit_data r' =
      <["database" := database]>
        (<["password" := "None"]>
          (<["user" := DbProvides._generate_username ch rid]> (local_unit_data r))) /\
    local_unit_data r' !! "password" = Some "None" /\
    local_app_data r' = local_app_data r.
Proof.
  intros Hl Ha Hr Happ Hunit Hdb Hne Hxa Hxu Hpw st'. subst st'.
  unfold exec, outcome, DbProvides._on_relation_joined.
  unfold bind, set_status, modify, get, DbProvides.get_relation; simpl.
  rewrite Ha; simpl. rewrite Hr; simpl. rewrite Happ; simpl.
  rewrite Hunit; simpl. rewrite Hdb.
  destruct database as [|c database]; [congruence|]. simpl.
  rewrite Hxa, Hxu, Hl. simpl. rewrite Hpw. simpl.
  rewrite (update_databags_run _ _ _ _ r) by exact Hr. simpl.
  repeat split.
  eexists. split.
  - apply (find_update rid (DbProvides.write_databags ch _) _ r); [reflexivity|exact Hr].
  - simpl. rewrite Hl. repeat split.
    rewrite lookup_insert_ne by discriminate. apply lookup_insert_eq.
Qed.

Lemma provision_keeps_relations ch admin user password database :
  follows (same relations) (DbProvides.provision ch admin user password database).
Proof. unfold_handlers. repeat first [follows_step | progress unfold_handlers]. Qed.

Lemma provision_keeps_generated ch admin user password database :
  follows (same generated) (DbProvides.provision ch admin user password database).
Proof. unfold_handlers. repeat first [follows_step | progress unfold_handlers]. Qed.

Lemma published_update ch rid updates rels st r key :
  find (fun r => rel_id r =? rid) rels = Some r ->
  published rid key
    (set_relations
       (map (fun r => if rel_id r =? rid then DbProvides.write_databags ch updates r else r)
            rels) st)
  = DbProvides.update_dict updates (local_unit_data r) !! key.
Proof.
  intros Hr. unfold published, relation_of. simpl.
  rewrite (find_update rid (DbProvides.write_databags ch updates) _ r);
    [reflexivity | reflexivity | exact Hr].
Qed.

(** C5, as the code has it: on a join that gets past the guards, the user name
    published is built from the name of the operator's own application, the
    relation id and the model name; the leader draws one fresh password and
    publishes it; a non-leader draws none, publishes what the peer-shared
    store holds for the user name and defers when that is missing or empty. *)
Theorem C5_join_credentials
    (ch : Charm) (admin : bool) (rid : Z) (remote_unit : string) (st : State) :
  join_accepted ch rid remote_unit st ->
  let st' := exec (DbProvides._on_relation_joined ch admin rid remote_unit) st in
  let user :=
    Py.replace_dash (app_name ch ++ "_user_" ++ Py.of_int rid ++ "_" ++ model_name ch) in
  published rid "user" st' = Some user /\
  (is_leader ch = true ->
     generated st' = S (generated st) /\
     published rid "password" st' = Some (password_supply ch (generated st))) /\
  (is_leader ch = false ->
     generated st' = generated st /\
     published rid "password" st' = Some (Py.str (peers_app_databag st !! user)) /\
     (Py.truthy (peers_app_databag st !! user) = false -> deferred st' = true)).
Proof.
  intros (Ha & r & app & app_data & unit_data & Hr & Happ & Hunit & Hdb & Hxa & Hxu).
  unfold relation_of in Hr.
  intros st' user. subst st'.
  unfold exec, DbProvides._on_relation_joined.
  unfold bind, set_status, modify, get, DbProvides.get_relation; simpl.
  rewrite Ha; simpl. rewrite Hr; simpl. rewrite Happ; simpl.
  rewrite Hunit; simpl. rewrite Hdb; simpl. rewrite Hxa, Hxu; simpl.
  fold user. change (DbProvides._generate_username ch rid) with user.
  destruct (is_leader ch) eqn:Hl; simpl.
  - (* leader *)
    erewrite update_databags_run by exact Hr. simpl.
    match goal with
    | |- context [DbProvides.provision ?c ?a ?u ?p ?d ?s] =>
        pose proof (provision_keeps_relations c a u p d s) as Hrel;
        pose proof (provision_keeps_generated c a u p d s) as Hgen;
        destruct (DbProvides.provision c a u p d s) as [res st1]
    end.
    unfold same in Hrel, Hgen. simpl in Hrel, Hgen.
    assert (Hpub : forall key, published rid key st1 =
      DbProvides.update_dict
        [("user", Some user); ("password", Some (password_supply ch (generated st)));
         ("database", DbProvides.requested_database app_data unit_data)]
        (local_unit_data r) !! key).
    { intros key. unfold published, relation_of. rewrite Hrel.
      erewrite find_update; [reflexivity | reflexivity | exact Hr]. }
    destruct res; simpl; rewrite !Hpub, Hgen; simpl;
      (split; [|split; [intros _; split; [reflexivity|] | discriminate]]);
      rewrite lookup_insert_ne by discriminate;
      rewrite ?lookup_insert_eq; try reflexivity;
      rewrite lookup_insert_ne by discriminate; apply lookup_insert_eq.
  - (* non-leader *)
    destruct (Py.truthy (peers_app_databag st !! user)) eqn:Hpw; simpl;
      erewrite update_databags_run by exact Hr; simpl;
      (split; [|split; [discriminate|intros _; split; [reflexivity|split]]]);
      try (intros; congruence); try reflexivity;
      rewrite (published_update ch rid _ _ _ r) by exact Hr; simpl;
      rewrite lookup_insert_ne by discriminate;
      rewrite ?lookup_insert_eq; try reflexivity;
      rewrite lookup_insert_ne by discriminate; apply lookup_insert_eq.
Qed.

(** ** Republishing the connection info *)

Lemma update_dict_snoc updates kv (d : Databag) :
  DbProvides.update_dict (updates ++ [kv]) d =
  <[fst kv := Py.str (snd kv)]> (DbProvides.update_dict updates d).
Proof. unfold DbProvides.update_dict. rewrite fold_left_app. reflexivity. Qed.

(** After [databag.update(updates)] a key holds its last value in [updates],
    or what it held before. *)
Lemma update_dict_lookup updates (d : Databag) key :
  DbProvides.update_dict updates d !! key =
  match find (fun kv => bool_decide (fst kv = key)) (rev updates) with
  | Some kv => Some (Py.str (snd kv))
  | None => d !! key
  end.
Proof.
  induction updates as [|kv updates IH] using rev_ind; [reflexivity|].
  rewrite update_dict_snoc, rev_app_distr. simpl.
  destruct (bool_decide (fst kv = key)) eqn:E.
  - apply bool_decide_eq_true in E. subst key. apply lookup_insert_eq.
  - apply bool_decide_eq_false in E. rewrite lookup_insert_ne by exact E. exact IH.
Qed.

Lemma update_dict_idempotent updates (d : Databag) :
  DbProvides.update_dict updates (DbProvides.update_dict updates d) =
  DbProvides.update_dict updates d.
Proof.
  apply map_eq. intros key. rewrite !update_dict_lookup.
  destruct (find _ _); reflexivity.
Qed.

Lemma write_databags_idempotent ch updates r :
  DbProvides.write_databags ch updates (DbProvides.write_databags ch updates r) =
  DbProvides.write_databags ch updates r.
Proof.
  unfold DbProvides.write_databags. simpl.
  destruct (is_leader ch); rewrite !update_dict_idempotent; reflexivity.
Qed.

Lemma update_relations_idempotent ch rid updates (rels : list Relation) :
  map (fun r => if rel_id r =? rid then DbProvides.write_databags ch updates r else r)
    (map (fun r => if rel_id r =? rid then DbProvides.write_databags ch updates r else r)
       rels)
  = map (fun r => if rel_id r =? rid then DbProvides.write_databags ch updates r else r)
      rels.
Proof.
  rewrite map_map. apply map_ext. intros r.
  destruct (rel_id r =? rid) eqn:E; simpl; rewrite E; [|reflexivity].
  apply write_databags_idempotent.
Qed.

Lemma update_connection_info_run ch rid port st :
  DbProvides.update_connection_info ch rid port st =
  match find (fun r => rel_id r =? rid) (relations st) with
  | None => (Raise ModelError, st)
  | Some r =>
      match local_unit_data r !! "database", local_unit_data r !! "user",
            local_unit_data r !! "password" with
      | Some database, Some user, Some password =>
          match remote_app r with
          | Some (name, _) =>
              if bool_decide (name <> app_name ch) then
                (Ret tt,
                 set_relations
                   (map (fun r =>
                           if rel_id r =? rid
                           then DbProvides.write_databags ch
                                  (connection_updates
                                     (if Py.truthy port then Py.str port else listen_port ch)
                                     database user password name) r
                           else r)
                        (relations st)) st)
              else (Raise AttributeError, st)
          | None => (Raise AttributeError, st)
          end
      | _, _, _ => (Ret tt, st)
      end
  end.
Proof.
  unfold DbProvides.update_connection_info, DbProvides.first_databag,
    DbProvides.get_databags, DbProvides.get_external_app, bind,
    DbProvides.get_relation.
  destruct (find (fun r => rel_id r =? rid) (relations st)) as [r|] eqn:Hr;
    [|reflexivity]. simpl.
  destruct (local_unit_data r !! "database") as [database|]; [|reflexivity].
  destruct (local_unit_data r !! "user") as [user|]; [|reflexivity].
  destruct (local_unit_data r !! "password") as [password|]; [|reflexivity].
  rewrite Hr. simpl.
  destruct (remote_app r) as [[name app_data]|]; [|reflexivity].
  destruct (bool_decide (name <> app_name ch)); [|reflexivity].
  erewrite update_databags_run by exact Hr. reflexivity.
Qed.

Lemma update_connection_info_idempotent ch rid port st :
  exec (DbProvides.update_connection_info ch rid port)
    (exec (DbProvides.update_connection_info ch rid port) st)
  = exec (DbProvides.update_connection_info ch rid port) st.
Proof.
  unfold exec. rewrite (update_connection_info_run ch rid port st).
  destruct (find (fun r => rel_id r =? rid) (relations st)) as [r|] eqn:Hr; simpl;
    [|rewrite update_connection_info_run, Hr; reflexivity].
  destruct (local_unit_data r !! "database") as [database|] eqn:Hd;
    [|simpl; rewrite update_connection_info_run, Hr, Hd; reflexivity].
  destruct (local_unit_data r !! "user") as [user|] eqn:Hu;
    [|simpl; rewrite update_connection_info_run, Hr, Hd, Hu; reflexivity].
  destruct (local_unit_data r !! "password") as [password|] eqn:Hp;
    [|simpl; rewrite update_connection_info_run, Hr, Hd, Hu, Hp; reflexivity].
  destruct (remote_app r) as [[name app_data]|] eqn:Happ;
    [|simpl; rewrite update_connection_info_run, Hr, Hd, Hu, Hp, Happ; reflexivity].
  destruct (bool_decide (name <> app_name ch)) eqn:Hn;
    [|simpl; rewrite update_connection_info_run, Hr, Hd, Hu, Hp, Happ, Hn; reflexivity].
  simpl. rewrite update_connection_info_run. simpl.
  erewrite find_update; [|reflexivity|exact Hr]. simpl.
  rewrite !lookup_insert_ne by discriminate. rewrite Hd, Hu, Hp, Happ, Hn.
  simpl. rewrite update_relations_idempotent. reflexivity.
Qed.

Lemma update_connection_info_frame ch rid port st :
  let st' := exec (DbProvides.update_connection_info ch rid port) st in
  pgb_config st' = pgb_config st /\
  peers_app_databag st' = peers_app_databag st /\
  calls st' = calls st /\
  files st' = files st /\
  deferred st' = deferred st.
Proof.
  assert (H : forall {X} (proj : State -> X),
             (forall v st, proj (set_relations v st) = proj st) ->
             follows (same proj) (DbProvides.update_connection_info ch rid port)).
  { intros X proj Hp. unfold_handlers.
    repeat first [follows_step | progress unfold_handlers
                 | apply follows_modify; intros ?; hnf; apply Hp]. }
  repeat split; apply (H _ _); reflexivity.
Qed.

(** C7: when the leader handles relation-broken and the peer-shared store has
    no breaking flag for the relation, the handler does what republishing the
    connection info does and nothing else: the Config Document (routes and
    user entries), the peer-shared store, the credential file and the calls
    issued to the backend are as before, nothing is deferred, and handling
    the notification again from the state reached writes the same values. *)
Theorem C7_broken_without_flag (ch : Charm) (admin : bool) (rid : Z) (st : State) :
  is_leader ch = true ->
  peers_app_databag st !! DbProvides.break_flag admin rid = None ->
  let st' := exec (DbProvides._on_relation_broken ch admin rid) st in
  st' = exec (DbProvides.update_connection_info ch rid None) st /\
  pgb_config st' = pgb_config st /\
  peers_app_databag st' = peers_app_databag st /\
  calls st' = calls st /\
  files st' = files st /\
  deferred st' = deferred st /\
  exec (DbProvides._on_relation_broken ch admin rid) st' = st'.
Proof.
  intros Hl Hflag.
  assert (Hrun : forall s, peers_app_databag s !! DbProvides.break_flag admin rid = None ->
            exec (DbProvides._on_relation_broken ch admin rid) s =
            exec (DbProvides.update_connection_info ch rid None) s).
  { intros s Hs. unfold exec, DbProvides._on_relation_broken. rewrite Hl. simpl.
    unfold bind at 1. simpl. rewrite Hs. reflexivity. }
  intros st'. subst st'. rewrite (Hrun st Hflag).
  destruct (update_connection_info_frame ch rid None st) as (Hc & Hp & Hcalls & Hf & Hd).
  repeat split; try assumption.
  rewrite Hrun by (rewrite Hp; exact Hflag).
  apply update_connection_info_idempotent.
Qed.

(** ** Republishing the backend endpoints *)

Lemma update_postgres_endpoints_run ch admin rid reload st :
  DbProvides.update_postgres_endpoints ch admin rid reload st =
  match find (fun r => rel_id r =? rid) (relations st) with
  | None => (Raise ModelError, st)
  | Some r =>
      match local_unit_data r !! "database" with
      | None => (Ret tt, st)
      | Some database =>
          match BackendDatabaseRequires.postgres_databag ch with
          | None => (Raise AttributeError, st)
          | Some d =>
              match pgb_config st with
              | None => (Raise FileNotFoundError, st)
              | Some cfg =>
                  match republish ch admin database (d !! "endpoints") with
                  | Raise e => (Raise e, st)
                  | Ret change =>
                      (Ret tt,
                       set_reloads (if reload then S (reloads st) else reloads st)
                         (set_pgb_config (Some (set_databases change cfg)) st))
                  end
              end
          end
      end
  end.
Proof.
  unfold DbProvides.update_postgres_endpoints, DbProvides.first_databag,
    DbProvides.get_databags, bind, DbProvides.get_relation, republish.
  destruct (find (fun r => rel_id r =? rid) (relations st)) as [r|]; [|reflexivity].
  simpl.
  destruct (local_unit_data r !! "database") as [database|]; [|reflexivity].
  destruct (BackendDatabaseRequires.postgres_databag ch) as [d|]; [|reflexivity].
  simpl. unfold read_pgb_config.
  destruct (pgb_config st) as [cfg|]; [|reflexivity].
  unfold lift.
  destruct (DbProvides.route ch (d !! "endpoints") database) as [r0|e]; [|reflexivity].
  simpl.
  destruct (0 <? length (read_only_endpoints ch))%nat; simpl.
  - destruct (DbProvides.standby_route ch (read_only_endpoints ch) database)
      as [s|e]; [|reflexivity]. simpl.
    destruct admin; simpl; [|reflexivity].
    destruct (DbProvides.route ch (d !! "endpoints") (PG (constants ch)));
      reflexivity.
  - destruct admin; simpl; [|reflexivity].
    destruct (DbProvides.route ch (d !! "endpoints") (PG (constants ch)));
      reflexivity.
Qed.







Lemma length_append (s t : string) :
  String.length (s ++ t) = (String.length s + String.length t)%nat.
Proof.
  induction s as [|a s IH]; [reflexivity|].
  change (S (String.length (s ++ t)) = S (String.length s + String.length t)).
  rewrite IH. reflexivity.
Qed.

(** No database name is its own standby alias. *)
Lemma standby_alias_fresh database : database <> standby_alias database.
Proof.
  unfold standby_alias. intros E. apply (f_equal String.length) in E.
  rewrite length_append in E. simpl in E. lia.
Qed.


(** ** Tearing a client relation down *)

(** The scan answers [False] exactly when another link names the database:
    a test of existence. *)
Lemma scan_delete_db_false rid database links :
  DbProvides.scan_delete_db rid database links = false <->
  referenced_elsewhere rid database links.
Proof.
  unfold referenced_elsewhere. induction links as [|r links IH]; simpl.
  - split; [discriminate|]. intros (r & Hin & _). inversion Hin.
  - destruct (rel_id r =? rid) eqn:Hid.
    + apply Z.eqb_eq in Hid. rewrite IH. split.
      * intros (x & Hin & Hx). exists x. split; [right; exact Hin|exact Hx].
      * intros (x & Hin & Hne & Hx). apply elem_of_cons in Hin as [->|Hin].
        -- congruence.
        -- exists x. auto.
    + apply Z.eqb_neq in Hid. case_bool_decide as Hdb.
      * split; [|reflexivity]. intros _. exists r. split; [left|auto].
      * rewrite IH. split.
        -- intros (x & Hin & Hx). exists x. split; [right; exact Hin|exact Hx].
        -- intros (x & Hin & Hne & Hx). apply elem_of_cons in Hin as [->|Hin].
           ++ congruence.
           ++ exists x. auto.
Qed.

Lemma scan_delete_db_permutation rid database links links' :
  Permutation links links' ->
  DbProvides.scan_delete_db rid database links' =
  DbProvides.scan_delete_db rid database links.
Proof.
  intros Hperm.
  destruct (DbProvides.scan_delete_db rid database links) eqn:E.
  - destruct (DbProvides.scan_delete_db rid database links') eqn:E'; [reflexivity|].
    apply scan_delete_db_false in E' as (r & Hin & Hr).
    assert (DbProvides.scan_delete_db rid database links = false); [|congruence].
    apply scan_delete_db_false. exists r. split; [|exact Hr].
    rewrite Hperm. exact Hin.
  - apply scan_delete_db_false in E as (r & Hin & Hr).
    apply scan_delete_db_false. exists r. split; [|exact Hr].
    rewrite <- Hperm. exact Hin.
Qed.

Lemma postgres_auth_user ch pg :
  BackendDatabaseRequires.postgres ch = Ret (Some pg) ->
  exists a, BackendDatabaseRequires.auth_user ch = Ret (Some a).
Proof.
  unfold BackendDatabaseRequires.postgres, BackendDatabaseRequires.auth_user.
  destruct (BackendDatabaseRequires.relation ch); [|discriminate].
  destruct (BackendDatabaseRequires.postgres_databag ch) as [d|]; [|discriminate].
  destruct (d !! "endpoints"); [|discriminate].
  destruct (d !! "username"); [|discriminate].
  eauto.
Qed.

Lemma bind_run {A B} (m : M A) (k : A -> M B) st a st1 :
  m st = (Ret a, st1) -> bind m k st = k a st1.
Proof. intros H. unfold bind. rewrite H. reflexivity. Qed.

Lemma remove_auth_function_run ch database pg a st :
  BackendDatabaseRequires.postgres ch = Ret (Some pg) ->
  BackendDatabaseRequires.auth_user ch = Ret (Some a) ->
  backend_raises ch (ConnectToDatabase database) = false ->
  backend_raises ch (RemoveAuth database a) = false ->
  BackendDatabaseRequires.remove_auth_function ch [database] st =
  (Ret tt, set_calls (calls st ++ [ConnectToDatabase database; RemoveAuth database a]) st).
Proof.
  intros Hpg Hau Hconn Hrm.
  unfold BackendDatabaseRequires.remove_auth_function. simpl.
  unfold BackendDatabaseRequires.run_auth_script,
    BackendDatabaseRequires.postgres_call, bind, lift.
  rewrite Hpg. unfold backend_call at 1. rewrite Hconn, Hau.
  unfold backend_call. simpl. rewrite Hrm. unfold ret, set_calls. simpl.
  rewrite <- app_assoc. reflexivity.
Qed.

(** The last step of the teardown: the role is deleted, and a refusal of the
    backend is swallowed. *)
Lemma delete_user_run ch pg user st :
  BackendDatabaseRequires.postgres ch = Ret (Some pg) ->
  try_except
    (BackendDatabaseRequires.postgres_call ch (DeleteUser (Some user))
       PostgreSQLDeleteUserError)
    (fun e => match e with PostgreSQLDeleteUserError => true | _ => false end)
    (fun _ => ret tt) st
  = (Ret tt, set_calls (calls st ++ [DeleteUser (Some user)]) st).
Proof.
  intros Hpg. unfold try_except, BackendDatabaseRequires.postgres_call, bind, lift.
  rewrite Hpg. unfold backend_call.
  destruct (backend_raises ch (DeleteUser (Some user))); reflexivity.
Qed.

(** C1: when the leader handles relation-broken for a link whose breaking
    flag is set, with the backend available, the route of the link's database
    and its standby alias leave the Config Document exactly when no other
    client link, of either flavour, names that database in this unit's
    databag; otherwise the route table is as it was.  Only the existence of
    such a link counts: the scan gives the same answer on any reordering of
    the links. *)
Theorem C1_database_retention
    (ch : Charm) (admin : bool) (rid : Z) (st : State)
    (user database : string) (cfg : PgbConfig) :
  is_leader ch = true ->
  Py.truthy (peers_app_databag st !! DbProvides.break_flag admin rid) = true ->
  published rid "user" st = Some user ->
  published rid "database" st = Some database ->
  backend_available ch database ->
  pgb_config st = Some cfg ->
  let st' := exec (DbProvides._on_relation_broken ch admin rid) st in
  exists cfg',
    pgb_config st' = Some cfg' /\
    (referenced_elsewhere rid database (client_links st) ->
       databases cfg' = databases cfg) /\
    (~ referenced_elsewhere rid database (client_links st) ->
       databases cfg' = delete (standby_alias database) (delete database (databases cfg))) /\
    (is_Some (databases cfg !! database) ->
       (databases cfg' !! database = None <->
        ~ referenced_elsewhere rid database (client_links st))) /\
    (forall links,
       Permutation (client_links st) links ->
       DbProvides.scan_delete_db rid database links =
       DbProvides.scan_delete_db rid database (client_links st)).
Proof.
  intros Hl Hflag Huser Hdb ([pg Hpg] & Hconn & Hrm) Hcfg st'.
  destruct (postgres_auth_user _ _ Hpg) as [a Hau].
  unfold published, relation_of in Huser, Hdb.
  destruct (find (fun r => rel_id r =? rid) (relations st)) as [r|] eqn:Hr;
    [|discriminate].
  assert (Hrun : exists st1,
            pgb_config st1 =
              Some (remove_user user
                (if DbProvides.scan_delete_db rid database (client_links st)
                 then set_databases (delete (standby_alias database))
                        (set_databases (delete database) cfg)
                 else cfg)) /\ st' = st1).
  { subst st'. unfold exec, DbProvides._on_relation_broken. rewrite Hl. simpl.
    erewrite bind_run by reflexivity. rewrite Hflag. simpl.
    erewrite bind_run by reflexivity.
    erewrite bind_run.
    2:{ unfold DbProvides.first_databag, DbProvides.get_databags.
        erewrite bind_run.
        2:{ erewrite bind_run; [reflexivity|].
            unfold DbProvides.get_relation. simpl. rewrite Hr. reflexivity. }
        reflexivity. }
    rewrite Huser, Hdb.
    erewrite bind_run by (unfold lift; rewrite Hpg; reflexivity).
    cbv beta iota.
    erewrite bind_run by (unfold read_pgb_config; simpl; rewrite Hcfg; reflexivity).
    erewrite bind_run by reflexivity.
    change (DbProvides.model_relations "db" _ ++ DbProvides.model_relations "db-admin" _)%list
      with (client_links st).
    destruct (DbProvides.scan_delete_db rid database (client_links st)).
    - erewrite bind_run.
      2:{ erewrite bind_run; [reflexivity|].
          apply (remove_auth_function_run ch database pg a); auto. }
      erewrite bind_run by reflexivity.
      erewrite bind_run by reflexivity.
      rewrite (delete_user_run ch pg) by exact Hpg.
      eexists. split; [|reflexivity]. reflexivity.
    - erewrite bind_run by reflexivity.
      erewrite bind_run by reflexivity.
      erewrite bind_run by reflexivity.
      rewrite (delete_user_run ch pg) by exact Hpg.
      eexists. split; [|reflexivity]. reflexivity. }
  destruct Hrun as (st1 & Hst1 & ->).
  eexists. split; [exact Hst1|].
  pose proof (scan_delete_db_false rid database (client_links st)) as Hscan.
  destruct (DbProvides.scan_delete_db rid database (client_links st)) eqn:E; simpl.
  - assert (Hnot : ~ referenced_elsewhere rid database (client_links st)).
    { intros H. apply Hscan in H. discriminate. }
    repeat split; try tauto.
    + intros _. rewrite lookup_delete_ne by (apply not_eq_sym, standby_alias_fresh).
      apply lookup_delete_eq.
    + intros links Hperm. rewrite <- E. apply scan_delete_db_permutation, Hperm.
  - assert (Href : referenced_elsewhere rid database (client_links st)).
    { apply Hscan. reflexivity. }
    repeat split; try tauto.
    + intros Hnone. destruct H as [x Hx]. congruence.
    + intros links Hperm. rewrite <- E. apply scan_delete_db_permutation, Hperm.
Qed.

(** ** The breaking flag *)

(** No run of the departed handler changes the peer-shared store: where the
    flag should be raised, [self.relation] raises first. *)
Lemma departed_keeps_peers ch admin rid app :
  follows (same peers_app_databag) (DbProvides._on_relation_departed ch admin rid app).
Proof.
  unfold DbProvides._on_relation_departed, DbProvides.relation.
  repeat first
    [ match goal with
      | |- follows _ (bind (lift (Raise _)) _) => intros ?; hnf; reflexivity
      end
    | follows_step
    | progress unfold_handlers ].
Qed.

Lemma departed_own_application_raises ch admin rid st r :
  is_leader ch = true ->
  relation_of rid st = Some r ->
  outcome (DbProvides._on_relation_departed ch admin rid (app_name ch)) st
  = Raise AttributeError.
Proof.
  intros Hl Hr. unfold relation_of in Hr.
  unfold outcome, DbProvides._on_relation_departed.
  erewrite bind_run.
  2:{ unfold DbProvides.get_allowed_units. erewrite bind_run; [reflexivity|].
      unfold DbProvides.get_relation. rewrite Hr. reflexivity. }
  erewrite bind_run by (apply (update_databags_run _ _ _ _ r); exact Hr).
  rewrite Hl, bool_decide_eq_true_2 by reflexivity. reflexivity.
Qed.

(** C4 does not hold on the code: when the leader handles the departure of its own
    application from relation 4 of the admin flavour, the handler ends with
    [AttributeError] and the peer-shared store holds no breaking flag for the
    relation. *)
Theorem C4_breaking_flag_not_written :
  let h := DbProvides._on_relation_departed Examples.leader true 4 "pgbouncer" in
  outcome h Examples.serving = Raise AttributeError /\
  peers_app_databag (exec h Examples.serving) !! DbProvides.break_flag true 4 = None /\
  peers_app_databag (exec h Examples.serving) = peers_app_databag Examples.serving.
Proof.
  intros h.
  pose proof (departed_keeps_peers Examples.leader true 4 "pgbouncer" Examples.serving)
    as Hpeers.
  change (peers_app_databag (exec h Examples.serving)
          = peers_app_databag Examples.serving) in Hpeers.
  split; [|split].
  - apply (departed_own_application_raises Examples.leader true 4 Examples.serving
             (Examples.client 4 "db-admin" Examples.cli_data)); reflexivity.
  - rewrite Hpeers. vm_compute. reflexivity.
  - exact Hpeers.
Qed.

(** ** The auth user *)

Lemma auth_user_without_username ch d :
  BackendDatabaseRequires.postgres_databag ch = Some d ->
  d !! "username" = None ->
  BackendDatabaseRequires.auth_user ch = Ret None.
Proof.
  intros Hd Hu. unfold BackendDatabaseRequires.auth_user. rewrite Hd, Hu. reflexivity.
Qed.

Lemma auth_user_with_username ch d username :
  BackendDatabaseRequires.postgres_databag ch = Some d ->
  d !! "username" = Some username ->
  BackendDatabaseRequires.auth_user ch =
  Ret (Some (Py.replace_dash ("pgbouncer_auth_" ++ username))).
Proof.
  intros Hd Hu. unfold BackendDatabaseRequires.auth_user. rewrite Hd, Hu. reflexivity.
Qed.

Lemma auth_user_without_relation ch :
  backend_relation ch = None ->
  BackendDatabaseRequires.auth_user ch = Raise AttributeError.
Proof.
  intros Hr. unfold BackendDatabaseRequires.auth_user,
    BackendDatabaseRequires.postgres_databag, BackendDatabaseRequires.relation.
  rewrite Hr. reflexivity.
Qed.

(** C9 does not hold on the code: with no backend relation at all, evaluating
    [auth_user] raises [AttributeError], where the sibling property
    [postgres] returns [None]. *)
Theorem C9_auth_user_raises_without_relation :
  BackendDatabaseRequires.auth_user Examples.no_backend = Raise AttributeError /\
  BackendDatabaseRequires.postgres Examples.no_backend = Ret None.
Proof. split; reflexivity. Qed.

(** ** Tearing the backend relation down *)

Lemma backend_broken_defers ch st :
  pgb_config st = None ->
  outcome (BackendDatabaseRequires._on_relation_broken ch) st = Ret tt /\
  exec (BackendDatabaseRequires._on_relation_broken ch) st = set_deferred true st.
Proof.
  intros Hc. unfold outcome, exec, BackendDatabaseRequires._on_relation_broken.
  erewrite bind_run.
  2:{ unfold try_except, bind, read_pgb_config. rewrite Hc. reflexivity. }
  split; reflexivity.
Qed.

(** Whenever the handler rewrites the Config Document, [auth_file] is as it
    was: only [auth_user] and [auth_query] are popped. *)
Lemma backend_broken_keeps_auth_file ch st cfg pg :
  pgb_config st = Some cfg ->
  BackendDatabaseRequires.postgres ch = Ret (Some pg) ->
  exists cfg',
    pgb_config (exec (BackendDatabaseRequires._on_relation_broken ch) st) = Some cfg' /\
    pgbouncer cfg' !! "auth_file" = pgbouncer cfg !! "auth_file" /\
    pgbouncer cfg' !! "auth_query" = None /\
    pgbouncer cfg' !! "auth_user" = None /\
    users cfg' !! pg_user pg = None.
Proof.
  intros Hc Hpg. unfold exec, BackendDatabaseRequires._on_relation_broken.
  erewrite bind_run.
  2:{ unfold try_except, bind, read_pgb_config. rewrite Hc. reflexivity. }
  cbv beta iota.
  erewrite bind_run by (unfold lift; rewrite Hpg; reflexivity).
  cbv beta iota. eexists. split; [reflexivity|]. simpl.
  rewrite !lookup_delete_ne by discriminate.
  rewrite lookup_delete_eq, lookup_delete_ne, !lookup_delete_eq by discriminate.
  auto.
Qed.

(** C6 does not hold on the code: the leader handles database-created and
    then relation-broken of the backend relation.  The user entry and
    [auth_query] are gone and the credential file is deleted, but the
    [auth_file] setting written at database-created time is still in the
    Config Document. *)
Theorem C6_auth_file_left_behind :
  let created := Dispatch.run [(Examples.leader, Dispatch.BackendDatabaseCreated "relation-3")]
                   Examples.fresh in
  let broken := Dispatch.run Examples.backend_life Examples.fresh in
  (pgbouncer <$> pgb_config created) =
    Some (<["auth_query" :=
             "SELECT username, password FROM pgbouncer_auth_relation_3.get_auth($1)"]>
          (<["auth_file" := "/var/lib/postgresql/pgbouncer/userlist.txt"]>
           {[ "listen_port" := "6432" ]})) /\
  (pgbouncer <$> pgb_config broken) =
    Some (<["auth_file" := "/var/lib/postgresql/pgbouncer/userlist.txt"]>
          {[ "listen_port" := "6432" ]}) /\
  (users <$> pgb_config broken) = Some ∅ /\
  files broken = ∅ /\
  deferred broken = false.
Proof. vm_compute. repeat split; reflexivity. Qed.

(** ** The user name of a client link *)

(** C5 as stated fails: two deployments that agree on the requesting
    application, the relation id and the model name publish different user
    names when the operator's own application is named differently. *)
Lemma C5_username_not_from_requester :
  ~ (forall ch1 ch2 admin rid remote_unit st,
       join_accepted ch1 rid remote_unit st ->
       join_accepted ch2 rid remote_unit st ->
       model_name ch1 = model_name ch2 ->
       published rid "user" (exec (DbProvides._on_relation_joined ch1 admin rid remote_unit) st)
       = published rid "user" (exec (DbProvides._on_relation_joined ch2 admin rid remote_unit) st)).
Proof.
  intros H.
  assert (Hj : forall ch, is_active (check_status ch) = true ->
             join_accepted ch 4 "psql/0" Examples.fresh).
  { intros ch Ha. split; [exact Ha|].
    exists (Examples.client 4 "db-admin" ∅), "psql", ∅, {[ "database" := "cli" ]}.
    repeat split; reflexivity. }
  specialize (H Examples.follower Examples.renamed true 4 "psql/0" Examples.fresh
                (Hj Examples.follower eq_refl) (Hj Examples.renamed eq_refl) eq_refl).
  vm_compute in H. discriminate H.
Qed.

(** ** The properties on the example deployments *)

Lemma C1_database_retention_witness :
  exists cfg',
    pgb_config (exec (DbProvides._on_relation_broken Examples.leader true 4) Examples.shared)
      = Some cfg' /\
    databases cfg' !! "cli" = Some (Examples.cli_route "10.180.162.236").
Proof.
  destruct (C1_database_retention Examples.leader true 4 Examples.shared
              Examples.cli_user "cli" Examples.serving_config)
    as (cfg' & Hcfg & Hkept & _).
  - reflexivity.
  - reflexivity.
  - reflexivity.
  - reflexivity.
  - split; [eexists; reflexivity|]. split; [reflexivity|]. intros a. reflexivity.
  - reflexivity.
  - exists cfg'. split; [exact Hcfg|]. rewrite Hkept; [reflexivity|].
    exists (Examples.client 5 "db" {[ "database" := "cli" ]}).
    split; [|split; [discriminate|reflexivity]].
    vm_compute. left.
Defined.

Lemma C2_leader_only_mutation_witness :
  exists issued,
    calls (Dispatch.run Examples.follower_life Examples.fresh)
      = (calls Examples.fresh ++ issued)%list /\
    Forall (fun c => mutating c = false) issued.
Proof.
  apply (C2_leader_only_mutation Examples.follower_life Examples.fresh).
  repeat constructor.
Defined.


Lemma C5_join_credentials_witness :
  published 4 "user"
    (exec (DbProvides._on_relation_joined Examples.leader true 4 "psql/0") Examples.fresh)
  = Some "pgbouncer_user_4_test_db_admin_3una".
Proof.
  refine (proj1 (C5_join_credentials Examples.leader true 4 "psql/0" Examples.fresh _)).
  split; [reflexivity|].
  exists (Examples.client 4 "db-admin" ∅), "psql", ∅, {[ "database" := "cli" ]}.
  repeat split; reflexivity.
Defined.

Lemma C7_broken_without_flag_witness :
  pgb_config (exec (DbProvides._on_relation_broken Examples.leader true 4) Examples.serving)
  = Some Examples.serving_config.
Proof.
  refine (proj1 (proj2 (C7_broken_without_flag Examples.leader true 4 Examples.serving _ _)));
    reflexivity.
Defined.

Lemma C10_follower_join_publishes_None_witness :
  published 4 "password"
    (exec (DbProvides._on_relation_joined Examples.follower true 4 "psql/0") Examples.fresh)
  = Some "None".
Proof.
  destruct (C10_follower_join_publishes_None Examples.follower true 4 "psql/0"
              Examples.fresh (Examples.client 4 "db-admin" ∅) "psql" ∅
              {[ "database" := "cli" ]} "cli")
    as (_ & _ & _ & _ & r' & Hr' & _ & Hpw & _).
  1-10: first [reflexivity | discriminate].
  unfold published, relation_of. rewrite Hr'. exact Hpw.
Defined.

(** * Further properties of the handlers *)

(** ** Who writes which databag *)

Lemma update_relations_view {V} (view : Relation -> V) ch rid updates (rels : list Relation) :
  (forall r, view (DbProvides.write_databags ch updates r) = view r) ->
  map view
    (map (fun r => if rel_id r =? rid then DbProvides.write_databags ch updates r else r)
       rels)
  = map view rels.
Proof.
  intros Hv. rewrite map_map. apply map_ext. intros r.
  destruct (rel_id r =? rid); [apply Hv | reflexivity].
Qed.

Lemma follows_generate_password {X} (proj : State -> X) ch :
  (forall v st, proj (set_generated v st) = proj st) ->
  follows (same proj) (generate_password ch).
Proof. intros Hp st. unfold generate_password, same. simpl. apply Hp. Qed.

Lemma write_databags_follower ch updates r :
  is_leader ch = false ->
  local_app_data (DbProvides.write_databags ch updates r) = local_app_data r.
Proof. intros Hl. unfold DbProvides.write_databags. simpl. rewrite Hl. reflexivity. Qed.

Lemma follower_handler_keeps_app_databags ch n :
  is_leader ch = false -> follows (same app_databags) (Dispatch.handler ch n).
Proof.
  intros Hl.
  destruct n; simpl; unfold_handlers;
    rewrite ?Hl, ?orb_true_r, ?andb_false_r; simpl;
    repeat first
      [ follows_step
      | apply follows_modify; intros ?; hnf; unfold app_databags; simpl;
        apply update_relations_view; intros ?; apply write_databags_follower, Hl
      | progress unfold_handlers ].
Qed.

(** X1: a unit that is not the leader writes its own unit-scoped databags
    only: over any sequence of notifications it handles, the application-scoped
    databag of every client relation is as it was. *)
Theorem follower_never_writes_app_databag
    (ns : list (Charm * Dispatch.Notification)) (st : State) :
  Forall (fun cn => is_leader (fst cn) = false) ns ->
  app_databags (Dispatch.run ns st) = app_databags st.
Proof.
  intros Hns. revert st. induction Hns as [|[ch n] ns Hl _ IH]; intros st; simpl.
  - reflexivity.
  - rewrite IH. unfold Dispatch.handle, exec.
    apply (follower_handler_keeps_app_databags ch n Hl
             (set_failed false (set_deferred false st))).
Qed.

Lemma handler_keeps_remote_side ch n :
  follows (same remote_side) (Dispatch.handler ch n).
Proof.
  destruct n; simpl; unfold_handlers; unfold DbProvides.relation;
    repeat first
      [ follows_step
      | apply follows_generate_password; intros; reflexivity
      | apply follows_modify; intros ?; hnf; unfold remote_side; simpl;
        apply update_relations_view; intros ?; reflexivity
      | progress unfold_handlers ].
Qed.

(** X2: no handler, on the leader or not, adds or drops a relation or writes
    the remote side of one: ids, names and the databags of the remote
    application and of the remote units are the same after any sequence of
    notifications. *)
Theorem handlers_never_write_remote_side
    (ns : list (Charm * Dispatch.Notification)) (st : State) :
  remote_side (Dispatch.run ns st) = remote_side st.
Proof.
  revert st. induction ns as [|[ch n] ns IH]; intros st; simpl.
  - reflexivity.
  - rewrite IH. unfold Dispatch.handle, exec.
    apply (handler_keeps_remote_side ch n (set_failed false (set_deferred false st))).
Qed.

Lemma follower_never_writes_app_databag_witness :
  app_databags (Dispatch.run Examples.follower_life Examples.fresh)
  = app_databags Examples.fresh.
Proof.
  apply (follower_never_writes_app_databag Examples.follower_life Examples.fresh).
  repeat constructor.
Defined.

(** ** Client join: guards, provisioning and its failures *)


(** The handler up to the publication of the credentials, on a join that
    passes the guards. *)
Lemma joined_accepted_run ch admin rid remote_unit st database :
  join_requests ch rid remote_unit st database ->
  DbProvides._on_relation_joined ch admin rid remote_unit st =
  bind
    (if is_leader ch then
       bind (generate_password ch) (fun password => ret (Some password))
     else
       bind get (fun st =>
         let password := peers_app_databag st !! DbProvides._generate_username ch rid in
         bind (if negb (Py.truthy password) then defer else ret tt)
              (fun _ => ret password)))
    (fun password =>
       bind (DbProvides.update_databags ch rid
               [("user", Some (DbProvides._generate_username ch rid));
                ("password", password); ("database", Some database)])
            (fun _ =>
               if negb (is_leader ch) then ret tt
               else DbProvides.provision ch admin (DbProvides._generate_username ch rid)
                      password (Some database)))
    (set_unit_status (check_status ch) st).
Proof.
  intros (Ha & Hne & ad & ud & (r & app & Hr & Happ & Hunit) & Hdb & Hxa & Hxu).
  unfold relation_of in Hr.
  unfold DbProvides._on_relation_joined.
  erewrite bind_run by reflexivity. erewrite bind_run by reflexivity. simpl.
  rewrite Ha. simpl.
  erewrite bind_run by (unfold DbProvides.get_relation; simpl; rewrite Hr; reflexivity).
  rewrite Happ. erewrite bind_run by reflexivity.
  rewrite Hunit. erewrite bind_run by reflexivity.
  rewrite Hdb, Hxa, Hxu.
  destruct database; [congruence|]. reflexivity.
Qed.

(** X6: a non-leader whose peer-shared store holds a password for the derived
    user name publishes that password, in its unit-scoped databag only,
    without deferring, generating or provisioning anything. *)
Theorem follower_join_publishes_stored_password
    (ch : Charm) (admin : bool) (rid : Z) (remote_unit : string) (st : State)
    (database password : string) :
  is_leader ch = false ->
  join_requests ch rid remote_unit st database ->
  peers_app_databag st !! DbProvides._generate_username ch rid = Some password ->
  password <> "" ->
  let h := DbProvides._on_relation_joined ch admin rid remote_unit in
  outcome h st = Ret tt /\
  published rid "user" (exec h st) = Some (DbProvides._generate_username ch rid) /\
  published rid "password" (exec h st) = Some password /\
  published rid "database" (exec h st) = Some database /\
  app_databags (exec h st) = app_databags st /\
  deferred (exec h st) = deferred st /\
  failed (exec h st) = failed st /\
  pgb_config (exec h st) = pgb_config st /\
  peers_app_databag (exec h st) = peers_app_databag st /\
  calls (exec h st) = calls st /\
  generated (exec h st) = generated st.
Proof.
  intros Hl Hreq Hpw Hne h. subst h. unfold outcome, exec.
  rewrite (joined_accepted_run _ _ _ _ _ _ Hreq).
  destruct Hreq as (_ & _ & ad & ud & (r & app & Hr & _) & _).
  unfold relation_of in Hr.
  rewrite Hl. simpl.
  erewrite bind_run.
  2:{ erewrite bind_run by reflexivity. simpl. rewrite Hpw.
      destruct password; [congruence|]. reflexivity. }
  erewrite bind_run by (apply (update_databags_run _ _ _ _ r); exact Hr).
  simpl. repeat split.
  - rewrite (published_update ch rid _ _ _ r), update_dict_lookup by exact Hr.
    reflexivity.
  - rewrite (published_update ch rid _ _ _ r), update_dict_lookup by exact Hr.
    reflexivity.
  - rewrite (published_update ch rid _ _ _ r), update_dict_lookup by exact Hr.
    reflexivity.
  - unfold app_databags. simpl. apply update_relations_view.
    intros ?. apply write_databags_follower, Hl.
Qed.

(** ** The auth function *)

Lemma issued_issued l1 l2 st : issued l2 (issued l1 st) = issued (l1 ++ l2) st.
Proof. unfold issued, set_calls. simpl. rewrite <- app_assoc. reflexivity. Qed.

Lemma issued_nil st : issued [] st = st.
Proof. unfold issued, set_calls. rewrite app_nil_r. destruct st; reflexivity. Qed.

Lemma backend_call_accepted ch c e st :
  backend_raises ch c = false -> backend_call ch c e st = (Ret tt, issued [c] st).
Proof. intros H. unfold backend_call. rewrite H. reflexivity. Qed.

Lemma backend_call_refused ch c e st :
  backend_raises ch c = true -> backend_call ch c e st = (Raise e, issued [c] st).
Proof. intros H. unfold backend_call. rewrite H. reflexivity. Qed.

Lemma postgres_call_run ch pg c e st :
  BackendDatabaseRequires.postgres ch = Ret (Some pg) ->
  BackendDatabaseRequires.postgres_call ch c e st = backend_call ch c e st.
Proof.
  intros H. unfold BackendDatabaseRequires.postgres_call, bind, lift. rewrite H.
  reflexivity.
Qed.

Lemma run_auth_script_accepted ch script role db st :
  backend_ready ch role ->
  accepts ch [ConnectToDatabase db; script db role] ->
  BackendDatabaseRequires.run_auth_script ch script db st =
  (Ret tt, issued [ConnectToDatabase db; script db role] st).
Proof.
  intros [[pg Hpg] Hau] Hacc.
  apply Forall_cons in Hacc as [Hc Hacc]. apply Forall_cons in Hacc as [Hs _].
  unfold BackendDatabaseRequires.run_auth_script.
  erewrite bind_run
    by (rewrite (postgres_call_run _ pg) by exact Hpg; apply backend_call_accepted, Hc).
  erewrite bind_run by (unfold lift; rewrite Hau; reflexivity).
  cbv beta iota.
  rewrite backend_call_accepted by exact Hs. rewrite issued_issued. reflexivity.
Qed.

Lemma run_auth_script_refused ch script role db st :
  backend_ready ch role ->
  backend_raises ch (ConnectToDatabase db) = true \/
  backend_raises ch (script db role) = true ->
  BackendDatabaseRequires.run_auth_script ch script db st =
  (Raise Psycopg2Error,
   issued (if backend_raises ch (ConnectToDatabase db)
           then [ConnectToDatabase db]
           else [ConnectToDatabase db; script db role]) st).
Proof.
  intros [[pg Hpg] Hau] Href.
  unfold BackendDatabaseRequires.run_auth_script.
  destruct (backend_raises ch (ConnectToDatabase db)) eqn:Hc.
  - unfold bind at 1. rewrite (postgres_call_run _ pg) by exact Hpg.
    rewrite backend_call_refused by exact Hc. reflexivity.
  - destruct Href as [?|Hs]; [discriminate|].
    erewrite bind_run
      by (rewrite (postgres_call_run _ pg) by exact Hpg; apply backend_call_accepted, Hc).
    erewrite bind_run by (unfold lift; rewrite Hau; reflexivity).
    cbv beta iota.
    rewrite backend_call_refused by exact Hs. rewrite issued_issued. reflexivity.
Qed.

Lemma auth_loop_accepted ch script role dbs st :
  backend_ready ch role ->
  accepts ch (auth_calls script role dbs) ->
  BackendDatabaseRequires.for_each (BackendDatabaseRequires.run_auth_script ch script) dbs st
  = (Ret tt, issued (auth_calls script role dbs) st).
Proof.
  intros Hready. revert st. induction dbs as [|db dbs IH]; intros st Hacc; simpl.
  - rewrite issued_nil. reflexivity.
  - simpl in Hacc.
    apply Forall_cons in Hacc as [Hc Hacc]. apply Forall_cons in Hacc as [Hs Hacc].
    erewrite bind_run
      by (apply (run_auth_script_accepted ch script role); [exact Hready|];
          repeat constructor; assumption).
    rewrite IH by exact Hacc. rewrite issued_issued. reflexivity.
Qed.

Lemma auth_loop_refused ch script role before db after st :
  backend_ready ch role ->
  accepts ch (auth_calls script role before) ->
  backend_raises ch (ConnectToDatabase db) = true \/
  backend_raises ch (script db role) = true ->
  BackendDatabaseRequires.for_each (BackendDatabaseRequires.run_auth_script ch script)
    (before ++ db :: after) st
  = (Raise Psycopg2Error,
     issued (auth_calls script role before ++
             if backend_raises ch (ConnectToDatabase db)
             then [ConnectToDatabase db]
             else [ConnectToDatabase db; script db role]) st).
Proof.
  intros Hready. revert st. induction before as [|b before IH]; intros st Hacc Href; simpl.
  - unfold bind. rewrite (run_auth_script_refused ch script role) by assumption.
    reflexivity.
  - simpl in Hacc.
    apply Forall_cons in Hacc as [Hc Hacc]. apply Forall_cons in Hacc as [Hs Hacc].
    erewrite bind_run
      by (apply (run_auth_script_accepted ch script role); [exact Hready|];
          repeat constructor; assumption).
    rewrite IH by assumption. rewrite issued_issued. reflexivity.
Qed.

(** X7: with the backend ready and accepting, [initialise_auth_function]
    and [remove_auth_function] end normally after connecting to each database
    of the list once, in order, and executing their script there with the
    auth role; nothing else in the state changes. *)
Theorem auth_function_once_per_database
    (ch : Charm) (role : string) (dbs : list string) (st : State) :
  backend_ready ch role ->
  accepts ch (auth_calls InstallAuth role dbs) ->
  accepts ch (auth_calls RemoveAuth role dbs) ->
  BackendDatabaseRequires.initialise_auth_function ch dbs st
    = (Ret tt, issued (auth_calls InstallAuth role dbs) st) /\
  BackendDatabaseRequires.remove_auth_function ch dbs st
    = (Ret tt, issued (auth_calls RemoveAuth role dbs) st).
Proof.
  intros Hready Hi Hr. split; apply auth_loop_accepted; assumption.
Qed.

(** X8: a database the backend refuses to connect to ends
    [initialise_auth_function] and [remove_auth_function] with
    [psycopg2.Error] at that database: the databases before it have been
    processed and stay so, the databases after it are never reached. *)
Theorem auth_function_stops_at_first_refusal
    (ch : Charm) (role : string) (before after : list string) (db : string) (st : State) :
  backend_ready ch role ->
  accepts ch (auth_calls InstallAuth role before) ->
  accepts ch (auth_calls RemoveAuth role before) ->
  backend_raises ch (ConnectToDatabase db) = true ->
  BackendDatabaseRequires.initialise_auth_function ch (before ++ db :: after) st
    = (Raise Psycopg2Error,
       issued (auth_calls InstallAuth role before ++ [ConnectToDatabase db]) st) /\
  BackendDatabaseRequires.remove_auth_function ch (before ++ db :: after) st
    = (Raise Psycopg2Error,
       issued (auth_calls RemoveAuth role before ++ [ConnectToDatabase db]) st).
Proof.
  intros Hready Hi Hr Href.
  unfold BackendDatabaseRequires.initialise_auth_function,
    BackendDatabaseRequires.remove_auth_function.
  rewrite !(auth_loop_refused ch _ role) by auto.
  rewrite Href. split; reflexivity.
Qed.

(** ** The leader provisions a client link *)

Lemma bind_raise {A B} (m : M A) (k : A -> M B) st e st1 :
  m st = (Raise e, st1) -> bind m k st = (Raise e, st1).
Proof. intros H. unfold bind. rewrite H. reflexivity. Qed.

Lemma try_except_ret {A} (body : M A) catches handler st a st1 :
  body st = (Ret a, st1) -> try_except body catches handler st = (Ret a, st1).
Proof. intros H. unfold try_except. rewrite H. reflexivity. Qed.


(** The leader's part of a join that passes the guards: the credentials are
    published before anything is provisioned. *)
Lemma joined_leader_run ch admin rid remote_unit st database r :
  is_leader ch = true ->
  join_requests ch rid remote_unit st database ->
  relation_of rid st = Some r ->
  let user := DbProvides._generate_username ch rid in
  let password := password_supply ch (generated st) in
  DbProvides._on_relation_joined ch admin rid remote_unit st =
  DbProvides.provision ch admin user (Some password) (Some database)
    (set_relations
       (map (fun r => if rel_id r =? rid
                      then DbProvides.write_databags ch
                             [("user", Some user); ("password", Some password);
                              ("database", Some database)] r
                      else r) (relations st))
       (set_generated (S (generated st)) (set_unit_status (check_status ch) st))).
Proof.
  intros Hl Hreq Hr user password. unfold relation_of in Hr.
  rewrite (joined_accepted_run _ _ _ _ _ _ Hreq). rewrite Hl. simpl.
  erewrite bind_run by reflexivity.
  erewrite bind_run by (apply (update_databags_run _ _ _ _ r); exact Hr).
  reflexivity.
Qed.

Lemma published_both ch rid updates rels st r key entry :
  is_leader ch = true ->
  find (fun r => rel_id r =? rid) rels = Some r ->
  DbProvides.update_dict updates ∅ !! key = Some entry ->
  let st' :=
    set_relations
      (map (fun r => if rel_id r =? rid then DbProvides.write_databags ch updates r else r)
           rels) st in
  published rid key st' = Some entry /\ published_app rid key st' = Some entry.
Proof.
  intros Hl Hr Hk st'. subst st'. unfold published, published_app, relation_of. simpl.
  rewrite (find_update rid (DbProvides.write_databags ch updates) _ r);
    [|reflexivity|exact Hr].
  simpl. rewrite Hl. rewrite update_dict_lookup in Hk. rewrite !update_dict_lookup.
  destruct (find _ (rev updates)); [auto|]. rewrite lookup_empty in Hk. discriminate.
Qed.

(** X4: when the leader handles a join that passes the guards, with the
    backend ready and accepting and a Config Document to read, it draws one
    password and uses that same password everywhere: for the role it creates
    on the backend, in both databags of the relation and in the peer-shared
    store; it creates the database with the role as owner, installs the auth
    function there and enters the user in the Config Document with the
    flavour's admin flag. *)
Theorem leader_join_provisions
    (ch : Charm) (admin : bool) (rid : Z) (remote_unit : string) (st : State)
    (database role : string) (cfg : PgbConfig) :
  let user := DbProvides._generate_username ch rid in
  let password := password_supply ch (generated st) in
  let h := DbProvides._on_relation_joined ch admin rid remote_unit in
  is_leader ch = true ->
  join_requests ch rid remote_unit st database ->
  backend_ready ch role ->
  accepts ch [CreateUser (Some user) (Some password) admin;
              CreateDatabase database user;
              ConnectToDatabase database; InstallAuth database role] ->
  pgb_config st = Some cfg ->
  outcome h st = Ret tt /\
  calls (exec h st) =
    (calls st ++ [CreateUser (Some user) (Some password) admin;
                  CreateDatabase database user;
                  ConnectToDatabase database; InstallAuth database role])%list /\
  (published rid "user" (exec h st) = Some user /\
   published_app rid "user" (exec h st) = Some user) /\
  (published rid "password" (exec h st) = Some password /\
   published_app rid "password" (exec h st) = Some password) /\
  (published rid "database" (exec h st) = Some database /\
   published_app rid "database" (exec h st) = Some database) /\
  peers_app_databag (exec h st) = <[user := password]> (peers_app_databag st) /\
  pgb_config (exec h st) = Some (add_user user admin cfg) /\
  generated (exec h st) = S (generated st) /\
  deferred (exec h st) = deferred st /\
  failed (exec h st) = failed st.
Proof.
  intros user password h Hl Hreq [[pg Hpg] Hau] Hacc Hcfg. subst h.
  apply Forall_cons in Hacc as [Hcu Hacc]. apply Forall_cons in Hacc as [Hcd Hacc].
  assert (Hr : exists r, relation_of rid st = Some r).
  { destruct Hreq as (_ & _ & ? & ? & (r & ? & Hr & _) & _). eauto. }
  destruct Hr as [r Hr].
  unfold outcome, exec. rewrite (joined_leader_run _ _ _ _ _ _ r Hl Hreq Hr).
  fold user password. unfold relation_of in Hr.
  unfold DbProvides.provision.
  erewrite bind_run.
  2:{ apply try_except_ret.
      erewrite bind_run by reflexivity.
      erewrite bind_run
        by (rewrite (postgres_call_run _ pg) by exact Hpg;
            apply backend_call_accepted, Hcu).
      erewrite bind_run
        by (rewrite (postgres_call_run _ pg) by exact Hpg;
            apply backend_call_accepted, Hcd).
      erewrite bind_run by reflexivity. reflexivity. }
  cbv beta iota.
  erewrite bind_run
    by (apply (auth_loop_accepted ch InstallAuth role [database]);
        [split; eauto | exact Hacc]).
  erewrite bind_run by reflexivity.
  erewrite bind_run by (unfold read_pgb_config; simpl; rewrite Hcfg; reflexivity).
  simpl. rewrite <- !app_assoc. simpl.
  repeat split;
    apply (published_both ch rid _ (relations st) _ r); auto.
Qed.


(** ** Tearing a client relation down: what else happens *)

(** The handler from the point where the breaking flag is cleared. *)
Lemma broken_flagged_run ch admin rid st r :
  is_leader ch = true ->
  Py.truthy (peers_app_databag st !! DbProvides.break_flag admin rid) = true ->
  relation_of rid st = Some r ->
  DbProvides._on_relation_broken ch admin rid st =
  bind (lift (BackendDatabaseRequires.postgres ch)) (fun pg =>
    match pg, local_unit_data r !! "user", local_unit_data r !! "database" with
    | Some _, Some user, Some database =>
        cfg <- read_pgb_config ;;
        st <- get ;;
        cfg <-
          (if DbProvides.scan_delete_db rid database (client_links st) then
             BackendDatabaseRequires.remove_auth_function ch [database] ;;
             ret (set_databases (delete (standby_alias database))
                    (set_databases (delete database) cfg))
           else ret cfg) ;;
        render_pgb_config (remove_user user cfg) true ;;
        peers_remove_user user ;;
        try_except
          (BackendDatabaseRequires.postgres_call ch (DeleteUser (Some user))
             PostgreSQLDeleteUserError)
          (fun e => match e with PostgreSQLDeleteUserError => true | _ => false end)
          (fun _ => ret tt)
    | _, _, _ => defer
    end)
    (set_peers_app_databag
       (delete (DbProvides.break_flag admin rid) (peers_app_databag st)) st).
Proof.
  intros Hl Hflag Hr. unfold relation_of in Hr.
  unfold DbProvides._on_relation_broken. rewrite Hl. simpl.
  erewrite bind_run by reflexivity. rewrite Hflag. simpl.
  erewrite bind_run by reflexivity.
  erewrite bind_run.
  2:{ unfold DbProvides.first_databag, DbProvides.get_databags.
      erewrite bind_run.
      2:{ erewrite bind_run; [reflexivity|].
          unfold DbProvides.get_relation. simpl. rewrite Hr. reflexivity. }
      reflexivity. }
  reflexivity.
Qed.


(** X10: when the link torn down is the last one of its database and the
    backend refuses the connection for removing the auth function, the handler
    ends with [psycopg2.Error] after clearing the breaking flag: the Config
    Document is not rewritten (route and user entry stay), the credential
    stays in the peer-shared store and the role is not deleted. *)
Theorem teardown_aborted_by_auth_removal
    (ch : Charm) (admin : bool) (rid : Z) (st : State)
    (user database role : string) (cfg : PgbConfig) :
  let h := DbProvides._on_relation_broken ch admin rid in
  teardown_requested ch admin rid st user database ->
  backend_ready ch role ->
  DbProvides.scan_delete_db rid database (client_links st) = true ->
  backend_raises ch (ConnectToDatabase database) = true ->
  pgb_config st = Some cfg ->
  outcome h st = Raise Psycopg2Error /\
  pgb_config (exec h st) = Some cfg /\
  peers_app_databag (exec h st) =
    delete (DbProvides.break_flag admin rid) (peers_app_databag st) /\
  calls (exec h st) = (calls st ++ [ConnectToDatabase database])%list /\
  deferred (exec h st) = deferred st.
Proof.
  intros h (Hl & Hflag & Huser & Hdb) Hready Hlast Href Hcfg.
  pose proof Hready as [[pg Hpg] Hau].
  subst h. unfold published in Huser, Hdb.
  destruct (relation_of rid st) as [r|] eqn:Hr; [|discriminate].
  unfold outcome, exec. rewrite (broken_flagged_run _ _ _ _ r Hl Hflag Hr).
  erewrite bind_run by (unfold lift; rewrite Hpg; reflexivity).
  rewrite Huser, Hdb.
  erewrite bind_run by (unfold read_pgb_config; simpl; rewrite Hcfg; reflexivity).
  erewrite bind_run by reflexivity.
  change (client_links (set_peers_app_databag _ st)) with (client_links st).
  rewrite Hlast.
  erewrite bind_raise.
  2:{ eapply bind_raise.
      apply (auth_loop_refused ch RemoveAuth role [] database []);
        [exact Hready | constructor | left; exact Href]. }
  rewrite Href. simpl. rewrite Hcfg. repeat split.
Qed.

(** X11: when the teardown cannot proceed (the backend is not ready, or the
    unit databag lacks the user or the database), the handler defers after it
    has already cleared the breaking flag.  When the deferred notification
    comes back, the flag is absent and the handler only republishes the
    connection info: the Config Document, the peer-shared store and the calls
    to the backend stay as the deferral left them. *)
Theorem teardown_deferred_after_clearing_flag
    (ch : Charm) (admin : bool) (rid : Z) (st : State) (r : Relation) :
  let h := DbProvides._on_relation_broken ch admin rid in
  is_leader ch = true ->
  Py.truthy (peers_app_databag st !! DbProvides.break_flag admin rid) = true ->
  relation_of rid st = Some r ->
  BackendDatabaseRequires.postgres ch = Ret None \/
  (exists pg, BackendDatabaseRequires.postgres ch = Ret (Some pg)) /\
  (local_unit_data r !! "user" = None \/ local_unit_data r !! "database" = None) ->
  (outcome h st = Ret tt /\
   deferred (exec h st) = true /\
   peers_app_databag (exec h st) =
     delete (DbProvides.break_flag admin rid) (peers_app_databag st) /\
   pgb_config (exec h st) = pgb_config st /\
   relations (exec h st) = relations st /\
   calls (exec h st) = calls st) /\
  (pgb_config (exec h (exec h st)) = pgb_config st /\
   peers_app_databag (exec h (exec h st)) = peers_app_databag (exec h st) /\
   calls (exec h (exec h st)) = calls st).
Proof.
  intros h Hl Hflag Hr Hnot. subst h.
  assert (Hrun : DbProvides._on_relation_broken ch admin rid st =
            (Ret tt,
             set_deferred true
               (set_peers_app_databag
                  (delete (DbProvides.break_flag admin rid) (peers_app_databag st)) st))).
  { rewrite (broken_flagged_run _ _ _ _ r Hl Hflag Hr).
    destruct Hnot as [Hpg|[[pg Hpg] Hmiss]].
    - erewrite bind_run by (unfold lift; rewrite Hpg; reflexivity). reflexivity.
    - erewrite bind_run by (unfold lift; rewrite Hpg; reflexivity).
      destruct Hmiss as [-> | ->]; [reflexivity|].
      destruct (local_unit_data r !! "user"); reflexivity. }
  unfold outcome, exec. rewrite Hrun. simpl. split; [repeat split|].
  set (st1 := set_deferred true _).
  assert (Hagain : DbProvides._on_relation_broken ch admin rid st1 =
            DbProvides.update_connection_info ch rid None st1).
  { unfold DbProvides._on_relation_broken. rewrite Hl. simpl.
    erewrite bind_run by reflexivity. subst st1. simpl.
    rewrite lookup_delete_eq. reflexivity. }
  rewrite Hagain.
  destruct (update_connection_info_frame ch rid None st1) as (Hc & Hp & Hcalls & _).
  unfold exec in Hc, Hp, Hcalls. rewrite Hc, Hp, Hcalls. repeat split.
Qed.

(** ** Republishing the backend endpoints: what else holds *)



(** ** Republishing the connection info: what is written *)

Lemma find_update_other (rid rid' : Z) (f : Relation -> Relation) (rels : list Relation) :
  (forall x, rel_id (f x) = rel_id x) ->
  rid' <> rid ->
  find (fun r => rel_id r =? rid')
       (map (fun r => if rel_id r =? rid then f r else r) rels)
  = find (fun r => rel_id r =? rid') rels.
Proof.
  intros Hid Hne. induction rels as [|x rels IH]; simpl; [reflexivity|].
  destruct (rel_id x =? rid) eqn:E; simpl.
  - rewrite Hid. apply Z.eqb_eq in E.
    destruct (rel_id x =? rid') eqn:E'; [apply Z.eqb_eq in E'; congruence|exact IH].
  - destruct (rel_id x =? rid'); [reflexivity|exact IH].
Qed.

(** X14: [update_connection_info] writes the keys [master], [port] and
    [host] of the relation it is called for and nothing else: every other
    key of that relation's databags and every other relation is as before,
    and so are the Config Document, the peer store and the backend calls.
    When it raises, or when the unit databag lacks database, user or
    password, the state is exactly as before. *)
Theorem connection_info_writes_three_keys
    (ch : Charm) (rid : Z) (port : option string) (st : State) :
  let h := DbProvides.update_connection_info ch rid port in
  (forall key, key ∉ connection_keys ->
     published rid key (exec h st) = published rid key st /\
     published_app rid key (exec h st) = published_app rid key st) /\
  (forall rid', rid' <> rid -> relation_of rid' (exec h st) = relation_of rid' st) /\
  (forall e, outcome h st = Raise e -> exec h st = st) /\
  (published rid "database" st = None \/ published rid "user" st = None \/
   published rid "password" st = None -> exec h st = st).
Proof.
  intros h. subst h. unfold outcome, exec, published, published_app, relation_of.
  rewrite update_connection_info_run.
  destruct (find (fun r => rel_id r =? rid) (relations st)) as [r|] eqn:Hr;
    [|simpl; rewrite Hr; repeat split; intros; simplify_eq/=; auto].
  destruct (local_unit_data r !! "database") as [database|];
    [|simpl; rewrite Hr; repeat split; intros; simplify_eq/=; auto].
  destruct (local_unit_data r !! "user") as [user|];
    [|simpl; rewrite Hr; repeat split; intros; simplify_eq/=; auto].
  destruct (local_unit_data r !! "password") as [password|];
    [|simpl; rewrite Hr; repeat split; intros; simplify_eq/=; auto].
  destruct (remote_app r) as [[name app_data]|];
    [|simpl; rewrite Hr; repeat split; intros; simplify_eq/=; auto].
  destruct (bool_decide (name <> app_name ch));
    [|simpl; rewrite Hr; repeat split; intros; simplify_eq/=; auto].
  simpl. split; [|split; [|split]].
  - intros key Hkey.
    erewrite find_update; [|reflexivity|exact Hr]. simpl.
    assert (Hk : forall d : Databag,
              DbProvides.update_dict
                (connection_updates
                   (if Py.truthy port then Py.str port else listen_port ch)
                   database user password name) d !! key = d !! key).
    { intros d0. simpl.
      rewrite !lookup_insert_ne; [reflexivity| | |];
        intros <-; apply Hkey; unfold connection_keys; set_solver. }
    destruct (is_leader ch); (split; [apply (Hk (local_unit_data r))|]);
      [apply (Hk (local_app_data r)) | reflexivity].
  - intros rid' Hne. apply find_update_other; [reflexivity|exact Hne].
  - discriminate.
  - intros [?|[?|?]]; discriminate.
Qed.

(** X15: on an initialised link [update_connection_info] ends normally and
    publishes, in the unit databag and (on the leader) in the application
    databag, [host] [localhost], the effective port, and under [master] the
    connection string made, in this order, of host, dbname, port, user,
    password and the remote application's name as fallback application
    name. *)
Theorem connection_info_published
    (ch : Charm) (rid : Z) (port : option string) (st : State)
    (database user password app : string) :
  let h := DbProvides.update_connection_info ch rid port in
  let master :=
    "host=localhost dbname=" ++ database ++ " port=" ++ effective_port ch port
    ++ " user=" ++ user ++ " password=" ++ password
    ++ " fallback_application_name=" ++ app in
  link_initialised ch rid st database user password app ->
  outcome h st = Ret tt /\
  published rid "master" (exec h st) = Some master /\
  published rid "port" (exec h st) = Some (effective_port ch port) /\
  published rid "host" (exec h st) = Some "localhost" /\
  (is_leader ch = true ->
     published_app rid "master" (exec h st) = Some master /\
     published_app rid "port" (exec h st) = Some (effective_port ch port) /\
     published_app rid "host" (exec h st) = Some "localhost").
Proof.
  intros h master (Hd & Hu & Hp & Hne & r & app_data & Hr & Happ). subst h.
  unfold published in Hd, Hu, Hp. rewrite Hr in Hd, Hu, Hp.
  unfold outcome, exec, published, published_app. unfold relation_of in *.
  rewrite update_connection_info_run, Hr, Hd, Hu, Hp, Happ.
  rewrite bool_decide_eq_true_2 by exact Hne. simpl.
  erewrite find_update; [|reflexivity|exact Hr]. simpl.
  fold (effective_port ch port).
  split; [reflexivity|].
  split; [rewrite !lookup_insert_ne by discriminate; rewrite lookup_insert_eq; reflexivity|].
  split; [rewrite lookup_insert_ne by discriminate; apply lookup_insert_eq|].
  split; [apply lookup_insert_eq|].
  intros ->.
  split; [rewrite !lookup_insert_ne by discriminate; rewrite lookup_insert_eq; reflexivity|].
  split; [rewrite lookup_insert_ne by discriminate; apply lookup_insert_eq|].
  apply lookup_insert_eq.
Qed.

(** ** Relation changed *)

#[global] Instance keeps_published_preorder rid facts : PreOrder (keeps_published rid facts).
Proof.
  split.
  - intros st key value _ H. exact H.
  - intros s1 s2 s3 H12 H23 key value Hin H. eauto.
Qed.

Lemma keeps_published_same_relations rid facts st st' :
  relations st' = relations st -> keeps_published rid facts st st'.
Proof.
  intros Hrel key value _. unfold published, relation_of. rewrite Hrel. auto.
Qed.

Lemma keeps_published_update ch rid facts updates st :
  (forall key value, In (key, value) facts ->
     match find (fun kv => bool_decide (fst kv = key)) (rev updates) with
     | Some kv => Py.str (snd kv) = value
     | None => True
     end) ->
  keeps_published rid facts st
    (set_relations
       (map (fun r => if rel_id r =? rid then DbProvides.write_databags ch updates r else r)
            (relations st)) st).
Proof.
  intros Hup key value Hin. unfold published, relation_of. simpl.
  destruct (find (fun r => rel_id r =? rid) (relations st)) as [r|] eqn:Hr;
    [|discriminate].
  erewrite find_update; [|reflexivity|exact Hr]. simpl.
  rewrite update_dict_lookup. specialize (Hup key value Hin).
  destruct (find _ (rev updates)); [intros _; congruence | auto].
Qed.

Lemma follows_backend_call_published rid facts ch c e :
  follows (keeps_published rid facts) (backend_call ch c e).
Proof.
  intros st. unfold backend_call.
  destruct (backend_raises ch c); apply keeps_published_same_relations; reflexivity.
Qed.

Ltac published_step :=
  first
    [ follows_step
    | apply follows_backend_call_published
    | apply follows_modify; intros ?; apply keeps_published_same_relations; reflexivity
    | apply follows_modify; intros ?; apply keeps_published_update;
      let Hin := fresh in
      intros ? ? Hin; simpl in Hin;
      repeat (destruct Hin as [Hin|Hin]; [injection Hin as <- <-; vm_compute; trivial|]);
      destruct Hin
    | progress unfold_handlers ].

(** X16: relation-changed never changes the credentials of the link: however
    the handler ends, the user, the password and the database this unit
    publishes on the relation are what they were. *)
Theorem changed_keeps_credentials
    (ch : Charm) (admin : bool) (rid : Z) (st : State) (key : string) :
  let h := DbProvides._on_relation_changed ch admin rid in
  key ∈ ["user"; "password"; "database"] ->
  published rid key (exec h st) = published rid key st.
Proof.
  intros h Hkey. subst h. unfold exec, DbProvides._on_relation_changed.
  erewrite bind_run by reflexivity. erewrite bind_run by reflexivity. simpl.
  destruct (is_active (check_status ch)); simpl; [|reflexivity].
  unfold DbProvides.first_databag, DbProvides.get_databags.
  unfold bind at 1 2 3. unfold DbProvides.get_relation at 1. simpl.
  destruct (find (fun r => rel_id r =? rid) (relations st)) as [r|] eqn:Hr;
    [|reflexivity].
  simpl.
  destruct (local_unit_data r !! "database") as [database|] eqn:Hd; [|reflexivity].
  destruct (local_unit_data r !! "user") as [user|] eqn:Hu; [|reflexivity].
  destruct (local_unit_data r !! "password") as [password|] eqn:Hp; [|reflexivity].
  match goal with
  | |- published rid key (snd (?m ?s)) = _ =>
      assert (Hf : follows
                (keeps_published rid
                   [("user", user); ("password", password); ("database", database)]) m)
  end.
  { unfold_handlers. repeat published_step. }
  match goal with
  | |- published rid key (snd (?m ?s)) = _ => specialize (Hf s)
  end.
  assert (Hpub : forall k v,
            In (k, v) [("user", user); ("password", password); ("database", database)] ->
            published rid k st = Some v).
  { intros k v Hin. unfold published, relation_of. rewrite Hr. simpl in Hin.
    destruct Hin as [[= <- <-]|[[= <- <-]|[[= <- <-]|[]]]]; assumption. }
  assert (Hin : exists v,
            In (key, v) [("user", user); ("password", password); ("database", database)]).
  { apply elem_of_cons in Hkey as [->|Hkey]; [eexists; left; reflexivity|].
    apply elem_of_cons in Hkey as [->|Hkey]; [eexists; right; left; reflexivity|].
    apply elem_of_cons in Hkey as [->|Hkey]; [eexists; right; right; left; reflexivity|].
    inversion Hkey. }
  destruct Hin as [v Hin].
  rewrite (Hpub _ _ Hin). apply (Hf _ _ Hin). apply (Hpub _ _ Hin).
Qed.

(** X17: relation-changed on a unit that is not active, or on a link whose
    unit databag lacks the database, the user or the password, is deferred
    and changes nothing else: no databag, no route, no call to the backend. *)
Theorem changed_not_ready_defers
    (ch : Charm) (admin : bool) (rid : Z) (st : State) (r : Relation) :
  let h := DbProvides._on_relation_changed ch admin rid in
  relation_of rid st = Some r ->
  is_active (check_status ch) = false \/
  published rid "database" st = None \/
  published rid "user" st = None \/
  published rid "password" st = None ->
  outcome h st = Ret tt /\
  deferred (exec h st) = true /\
  nothing_provisioned st (exec h st).
Proof.
  intros h Hr Hnot. subst h. unfold published in Hnot. rewrite Hr in Hnot.
  unfold relation_of in Hr.
  unfold outcome, exec, DbProvides._on_relation_changed.
  erewrite bind_run by reflexivity. erewrite bind_run by reflexivity. simpl.
  destruct (is_active (check_status ch)); simpl; [|repeat split].
  destruct Hnot as [?|Hnot]; [discriminate|].
  erewrite bind_run.
  2:{ unfold DbProvides.first_databag, DbProvides.get_databags.
      erewrite bind_run.
      2:{ erewrite bind_run; [reflexivity|].
          unfold DbProvides.get_relation. simpl. rewrite Hr. reflexivity. }
      reflexivity. }
  destruct Hnot as [-> | [-> | ->]].
  - repeat split.
  - destruct (local_unit_data r !! "database"); repeat split.
  - destruct (local_unit_data r !! "database"), (local_unit_data r !! "user");
      repeat split.
Qed.

(** ** Derived names *)

Lemma replace_dash_no_dash s : has_dash (Py.replace_dash s) = false.
Proof.
  induction s as [|a s IH]; [reflexivity|]. simpl. rewrite IH, orb_false_r.
  destruct (Ascii.eqb a "-") eqn:E; [reflexivity|exact E].
Qed.

Lemma replace_dash_append s t :
  Py.replace_dash (s ++ t) = Py.replace_dash s ++ Py.replace_dash t.
Proof.
  induction s as [|a s IH]; [reflexivity|].
  change (String a s ++ t) with (String a (s ++ t)). simpl. rewrite IH. reflexivity.
Qed.

Lemma append_cancel_r (s1 s2 t : string) : s1 ++ t = s2 ++ t -> s1 = s2.
Proof.
  intros H. assert (Hlen : String.length s1 = String.length s2).
  { apply (f_equal String.length) in H. rewrite !length_append in H. lia. }
  revert s2 H Hlen. induction s1 as [|a s1 IH]; intros [|b s2] H Hlen;
    try discriminate; [reflexivity|].
  change (String a (s1 ++ t) = String b (s2 ++ t)) in H.
  injection H as -> H. f_equal. apply IH; [exact H|]. simpl in Hlen. lia.
Qed.

Lemma replace_dash_digits d :
  Py.replace_dash (NilEmpty.string_of_uint d) = NilEmpty.string_of_uint d.
Proof. induction d; simpl; rewrite ?IHd; reflexivity. Qed.

Lemma replace_dash_uint d :
  Py.replace_dash (NilZero.string_of_uint d) = NilZero.string_of_uint d.
Proof. destruct d; try reflexivity; apply (replace_dash_digits (_ _)). Qed.

Lemma uint_not_underscore d s : NilZero.string_of_uint d <> String "_" s.
Proof. destruct d; discriminate. Qed.

Lemma to_int_proper z :
  Z.to_int z <> Decimal.Pos Decimal.Nil /\ Z.to_int z <> Decimal.Neg Decimal.Nil.
Proof.
  destruct z as [|p|p]; simpl; (split; [|discriminate || idtac]); try discriminate.
  - intros [= H]. apply (DecimalPos.Unsigned.to_uint_nonnil p H).
  - intros [= H]. apply (DecimalPos.Unsigned.to_uint_nonnil p H).
Qed.

(** [str(n).replace("-", "_")] tells the integers apart. *)
Lemma replace_dash_of_int_inj z1 z2 :
  Py.replace_dash (Py.of_int z1) = Py.replace_dash (Py.of_int z2) -> z1 = z2.
Proof.
  unfold Py.of_int. intros H. apply DecimalZ.to_int_inj.
  destruct (to_int_proper z1) as [H1 H1'], (to_int_proper z2) as [H2 H2'].
  assert (Hs : NilZero.string_of_int (Z.to_int z1) = NilZero.string_of_int (Z.to_int z2)).
  { destruct (Z.to_int z1) as [d1|d1], (Z.to_int z2) as [d2|d2]; simpl in *.
    - rewrite !replace_dash_uint in H. exact H.
    - rewrite !replace_dash_uint in H. destruct (uint_not_underscore _ _ H).
    - rewrite !replace_dash_uint in H. symmetry in H.
      destruct (uint_not_underscore _ _ H).
    - rewrite !replace_dash_uint in H. injection H as H. rewrite H. reflexivity. }
  apply (f_equal NilZero.int_of_string) in Hs.
  rewrite !NilZero.isi in Hs by assumption. injection Hs as Hs. exact Hs.
Qed.

(** X18: the user names generated for client links never contain a dash, and
    for one deployment two relations with different ids never get the same
    user name. *)
Theorem usernames_distinct_and_dash_free (ch : Charm) (rid rid' : Z) :
  has_dash (DbProvides._generate_username ch rid) = false /\
  (DbProvides._generate_username ch rid = DbProvides._generate_username ch rid' ->
   rid = rid').
Proof.
  split; [apply replace_dash_no_dash|].
  unfold DbProvides._generate_username. rewrite !replace_dash_append.
  intros H. apply String.app_inj in H. apply String.app_inj in H.
  apply append_cancel_r in H. apply replace_dash_of_int_inj, H.
Qed.

(** X19: whenever the [postgres] property is available, so is [auth_user]:
    it is the dash-free name derived from the user of that [PostgreSQL]
    object, whose database is the operator's own.  Handlers that check
    [postgres] only may use [auth_user]. *)
Theorem auth_user_follows_postgres (ch : Charm) (pg : PostgreSQL) :
  BackendDatabaseRequires.postgres ch = Ret (Some pg) ->
  exists role,
    BackendDatabaseRequires.auth_user ch = Ret (Some role) /\
    role = Py.replace_dash ("pgbouncer_auth_" ++ pg_user pg) /\
    has_dash role = false /\
    pg_database pg = PGB (constants ch).
Proof.
  unfold BackendDatabaseRequires.postgres, BackendDatabaseRequires.auth_user.
  destruct (BackendDatabaseRequires.relation ch); [|discriminate].
  destruct (BackendDatabaseRequires.postgres_databag ch) as [d|]; [|discriminate].
  destruct (d !! "endpoints"); [|discriminate].
  destruct (d !! "username"); [|discriminate].
  destruct (d !! "password"); [|discriminate].
  intros [= <-]. simpl. eexists. split; [reflexivity|]. split; [reflexivity|].
  split; [apply replace_dash_no_dash|reflexivity].
Qed.

(** ** The backend relation *)

Lemma update_postgres_endpoints_beside_routes ch admin rid reload :
  follows (same beside_routes) (DbProvides.update_postgres_endpoints ch admin rid reload).
Proof.
  intros st. unfold same. rewrite update_postgres_endpoints_run.
  destruct (find (fun r => rel_id r =? rid) (relations st)) as [r|]; [|reflexivity].
  destruct (local_unit_data r !! "database") as [database|]; [|reflexivity].
  destruct (BackendDatabaseRequires.postgres_databag ch) as [d|]; [|reflexivity].
  destruct (pgb_config st) as [cfg|] eqn:Hcfg; [|reflexivity].
  destruct (republish ch admin database (d !! "endpoints")) as [change|e];
    [|reflexivity].
  unfold beside_routes. simpl. rewrite Hcfg. reflexivity.
Qed.

Lemma charm_update_beside_routes ch reload :
  follows (same beside_routes) (Dispatch.charm_update_postgres_endpoints ch reload).
Proof.
  unfold Dispatch.charm_update_postgres_endpoints.
  repeat first
    [ apply update_postgres_endpoints_beside_routes
    | follows_step ].
Qed.

Lemma postgres_call_with_run {A} ch pg (arg : Res A) a c e st :
  BackendDatabaseRequires.postgres ch = Ret (Some pg) ->
  arg = Ret a ->
  BackendDatabaseRequires.postgres_call_with ch arg c e st = backend_call ch (c a) e st.
Proof.
  intros H ->. unfold BackendDatabaseRequires.postgres_call_with, bind, lift.
  rewrite H. reflexivity.
Qed.

(** The handler up to the point where it reads the Config Document. *)
Lemma database_created_bootstrap ch update username role st :
  is_leader ch = true ->
  backend_ready ch role ->
  accepts ch (bootstrap_calls ch role (password_supply ch (generated st))) ->
  let password := password_supply ch (generated st) in
  BackendDatabaseRequires._on_database_created ch update username st =
  bind read_pgb_config (fun cfg =>
    let cfg := add_user username true cfg in
    let cfg := set_pgbouncer
      <["auth_query" := "SELECT username, password FROM " ++ role ++ ".get_auth($1)"]>
      cfg in
    let cfg := set_pgbouncer <["auth_file" := AUTH_FILE_PATH (constants ch)]> cfg in
    render_pgb_config cfg false ;;
    update true ;;
    set_status (ActiveStatus "backend-database relation initialised."))
    (set_files
       (<[AUTH_FILE_PATH (constants ch) := auth_file_line ch role password]> (files st))
       (issued (bootstrap_calls ch role password)
          (set_generated (S (generated st))
             (set_unit_status
                (MaintenanceStatus "Initialising backend-database relation") st)))).
Proof.
  intros Hl Hready Hacc password. pose proof Hready as [[pg Hpg] Hau].
  apply Forall_cons in Hacc as [Hcu Hacc].
  unfold BackendDatabaseRequires._on_database_created.
  erewrite bind_run by reflexivity. rewrite Hl. simpl.
  erewrite bind_run by (unfold lift; rewrite Hpg; reflexivity).
  cbv beta iota.
  erewrite bind_run by reflexivity.
  erewrite bind_run
    by (rewrite (postgres_call_with_run ch pg _ (Some role)) by assumption;
        apply backend_call_accepted, Hcu).
  erewrite bind_run
    by (apply (auth_loop_accepted ch InstallAuth role); assumption).
  erewrite bind_run by (unfold lift; rewrite Hau; reflexivity).
  cbv beta iota.
  erewrite bind_run by reflexivity.
  rewrite issued_issued. reflexivity.
Qed.

(** X20: when the leader handles database-created with the backend ready and
    accepting and a Config Document to read, it draws one password, creates
    the auth role as an admin with it, installs the auth function in the
    operator's own database and in the root database, writes the role and the
    hash of that password into the credential file, and enters in the Config
    Document the backend user as an admin, an [auth_query] that calls the
    function of that same role, and the path of the credential file; this
    holds whatever the republishing of the endpoints that follows does. *)
Theorem database_created_bootstraps_auth
    (ch : Charm) (username role : string) (st : State) (cfg : PgbConfig) :
  let password := password_supply ch (generated st) in
  let st' := exec (Dispatch.handler ch (Dispatch.BackendDatabaseCreated username)) st in
  is_leader ch = true ->
  backend_ready ch role ->
  accepts ch (bootstrap_calls ch role password) ->
  pgb_config st = Some cfg ->
  calls st' = (calls st ++ bootstrap_calls ch role password)%list /\
  files st' = <[AUTH_FILE_PATH (constants ch) := auth_file_line ch role password]> (files st) /\
  (users <$> pgb_config st') = Some (<[username := true]> (users cfg)) /\
  (pgbouncer <$> pgb_config st') =
    Some (<["auth_file" := AUTH_FILE_PATH (constants ch)]>
          (<["auth_query" := "SELECT username, password FROM " ++ role ++ ".get_auth($1)"]>
           (pgbouncer cfg))) /\
  generated st' = S (generated st) /\
  peers_app_databag st' = peers_app_databag st /\
  relations st' = relations st.
Proof.
  intros password st' Hl Hready Hacc Hcfg. subst st'. unfold exec. simpl.
  rewrite (database_created_bootstrap _ _ _ role) by assumption.
  fold password.
  erewrite bind_run by (unfold read_pgb_config; simpl; rewrite Hcfg; reflexivity).
  cbv zeta.
  erewrite bind_run by reflexivity.
  match goal with
  | |- context [bind (Dispatch.charm_update_postgres_endpoints ch true) ?k ?s] =>
      assert (Hkeep : beside_routes
                (snd (bind (Dispatch.charm_update_postgres_endpoints ch true) k s))
              = beside_routes s);
      [ apply (follows_bind (same beside_routes));
        [ apply charm_update_beside_routes
        | intros ?; apply follows_modify; intros ?; reflexivity ]
      | destruct (bind (Dispatch.charm_update_postgres_endpoints ch true) k s)
          as [res st1] ]
  end.
  unfold beside_routes in Hkeep. simpl in Hkeep.
  injection Hkeep as Hc Hf Hg Hp Hr Hu Hs.
  simpl. rewrite Hc, Hf, Hg, Hp, Hr, Hu, Hs. repeat split.
Qed.

(** X21: when the Config Document does not exist yet, the leader's
    database-created handler ends with [FileNotFoundError] only after it has
    created the auth role, installed the auth function and written the
    credential file: these stay, and there is still no Config Document. *)
Theorem database_created_without_config
    (ch : Charm) (username role : string) (st : State) :
  let password := password_supply ch (generated st) in
  let h := Dispatch.handler ch (Dispatch.BackendDatabaseCreated username) in
  is_leader ch = true ->
  backend_ready ch role ->
  accepts ch (bootstrap_calls ch role password) ->
  pgb_config st = None ->
  outcome h st = Raise FileNotFoundError /\
  calls (exec h st) = (calls st ++ bootstrap_calls ch role password)%list /\
  files (exec h st) =
    <[AUTH_FILE_PATH (constants ch) := auth_file_line ch role password]> (files st) /\
  generated (exec h st) = S (generated st) /\
  pgb_config (exec h st) = None /\
  deferred (exec h st) = deferred st.
Proof.
  intros password h Hl Hready Hacc Hcfg. subst h. unfold outcome, exec. simpl.
  rewrite (database_created_bootstrap _ _ _ role) by assumption.
  fold password.
  erewrite bind_raise by (unfold read_pgb_config; simpl; rewrite Hcfg; reflexivity).
  simpl. rewrite Hcfg. repeat split.
Qed.

(** X22: when the leader handles the departure of its own unit from the
    backend relation, with the backend ready and letting the auth function be
    removed, it removes the auth function from the operator's database and
    from the root database and only then asks for the auth role to be
    deleted; a refusal of that deletion is not caught: the handler ends with
    [PostgreSQLDeleteUserError]. *)
Theorem backend_departed_removes_role
    (ch : Charm) (role : string) (st : State) :
  let h := BackendDatabaseRequires._on_relation_departed ch (Some (unit_name ch)) in
  let removal := auth_calls RemoveAuth role [PGB (constants ch); PG (constants ch)] in
  is_leader ch = true ->
  backend_ready ch role ->
  accepts ch removal ->
  h st =
    (if backend_raises ch (DeleteUser (Some role))
     then Raise PostgreSQLDeleteUserError else Ret tt,
     issued (removal ++ [DeleteUser (Some role)]) st).
Proof.
  intros h removal Hl Hready Hacc. pose proof Hready as [[pg Hpg] Hau]. subst h.
  unfold BackendDatabaseRequires._on_relation_departed.
  rewrite Hl, bool_decide_eq_false_2 by (intros H; apply H; reflexivity). simpl.
  erewrite bind_run.
  2:{ apply try_except_ret.
      erewrite bind_run
        by (apply (auth_loop_accepted ch RemoveAuth role); assumption).
      reflexivity. }
  cbv beta iota.
  rewrite (postgres_call_with_run ch pg _ (Some role)) by assumption.
  unfold backend_call.
  destruct (backend_raises ch (DeleteUser (Some role)));
    unfold issued, set_calls; simpl; rewrite <- ?app_assoc; reflexivity.
Qed.


(** X24: the relation-broken handler of the backend rewrites the Config
    Document without touching the route table: the routes of the client
    databases to the departed backend stay.  It asks nothing of the backend.
    When the [postgres] property is already [None], it ends with
    [AttributeError] and changes nothing: the credential file stays too. *)
Theorem backend_broken_keeps_routes
    (ch : Charm) (st : State) (cfg : PgbConfig) :
  let h := BackendDatabaseRequires._on_relation_broken ch in
  pgb_config st = Some cfg ->
  (forall pg,
     BackendDatabaseRequires.postgres ch = Ret (Some pg) ->
     outcome h st = Ret tt /\
     (databases <$> pgb_config (exec h st)) = Some (databases cfg) /\
     (users <$> pgb_config (exec h st)) = Some (delete (pg_user pg) (users cfg)) /\
     files (exec h st) = delete (PGB_DIR (constants ch) ++ "/userlist.txt") (files st) /\
     calls (exec h st) = calls st /\
     peers_app_databag (exec h st) = peers_app_databag st /\
     relations (exec h st) = relations st) /\
  (BackendDatabaseRequires.postgres ch = Ret None ->
   outcome h st = Raise AttributeError /\ exec h st = st).
Proof.
  intros h Hcfg. subst h.
  unfold outcome, exec, BackendDatabaseRequires._on_relation_broken.
  erewrite bind_run.
  2:{ unfold try_except, bind, read_pgb_config. rewrite Hcfg. reflexivity. }
  cbv beta iota. split.
  - intros pg Hpg.
    erewrite bind_run by (unfold lift; rewrite Hpg; reflexivity).
    cbv beta iota. simpl. repeat split.
  - intros Hpg.
    erewrite bind_run by (unfold lift; rewrite Hpg; reflexivity).
    split; reflexivity.
Qed.

(** ** Allowed units and subnets *)

Lemma insert_sorted_perm x l : Permutation (Py.insert_sorted x l) (x :: l).
Proof.
  induction l as [|y l IH]; simpl; [reflexivity|].
  destruct (String.leb x y); [reflexivity|].
  rewrite IH. apply perm_swap.
Qed.

Lemma sorted_perm l : Permutation (Py.sorted l) l.
Proof.
  induction l as [|x l IH]; simpl; [reflexivity|].
  rewrite insert_sorted_perm. constructor. exact IH.
Qed.

Lemma insert_sorted_sorted x l :
  Sorted.StronglySorted String.le l -> Sorted.StronglySorted String.le (Py.insert_sorted x l).
Proof.
  induction 1 as [|y l Hl IH Hy]; simpl; [repeat constructor|].
  destruct (String.leb x y) eqn:E.
  - constructor; [constructor; assumption|].
    assert (Hxy : String.le x y) by (unfold String.le; rewrite E; exact I).
    constructor; [exact Hxy|].
    eapply Forall_impl; [exact Hy|]. intros z Hz. simpl. etrans; eassumption.
  - constructor; [exact IH|].
    assert (Hyx : String.le y x).
    { destruct (total String.le x y) as [H|H]; [|exact H].
      unfold String.le in H. rewrite E in H. destruct H. }
    rewrite insert_sorted_perm. constructor; assumption.
Qed.

Lemma sorted_sorted l : Sorted.StronglySorted String.le (Py.sorted l).
Proof.
  induction l as [|x l IH]; simpl; [constructor|]. apply insert_sorted_sorted, IH.
Qed.









(** X25: [get_allowed_units] returns, comma-joined and in ascending order,
    each remote unit of another application exactly once; a unit whose
    application is this one is never listed.  The state is not changed. *)
Theorem allowed_units_sorted_once (ch : Charm) (rid : Z) (st : State) (r : Relation) :
  relation_of rid st = Some r ->
  DbProvides.get_allowed_units ch rid st = (Ret (Py.join "," (allowed_units ch r)), st) /\
  Sorted.StronglySorted String.le (allowed_units ch r) /\
  NoDup (allowed_units ch r) /\
  forall u, u ∈ allowed_units ch r <->
            is_Some (remote_units r !! u) /\ DbProvides.unit_app u <> app_name ch.
Proof.
  intros Hr. unfold relation_of in Hr. split; [|split; [|split]].
  - unfold DbProvides.get_allowed_units.
    erewrite bind_run by (unfold DbProvides.get_relation; rewrite Hr; reflexivity).
    reflexivity.
  - apply sorted_sorted.
  - unfold allowed_units. rewrite sorted_perm.
    apply NoDup_filter, NoDup_fst_map_to_list.
  - intros u. unfold allowed_units. rewrite sorted_perm.
    rewrite list_elem_of_filter, list_elem_of_fmap. split.
    + intros [Hu ([k d] & -> & Hin)]. apply elem_of_map_to_list in Hin.
      split; [eexists; exact Hin|exact Hu].
    + intros [[d Hd] Hu]. split; [exact Hu|].
      exists (u, d). split; [reflexivity|]. apply elem_of_map_to_list. exact Hd.
Qed.


(** ** What relation-changed publishes *)





(** ** What [update_databags] leaves in the databags *)




(** ** The guards of the backend handlers *)

(** X29: the guards of the backend handlers.  A non-leader handling
    database-created only sets the unit status to maintenance, and does not
    set it back to active.  A leader whose [postgres] property is [None]
    does the same and defers.  The departed handler does nothing at all
    unless the unit is the leader and the departing unit is this unit. *)
Theorem backend_handlers_guarded
    (ch : Charm) (username : string) (departing : option string) (st : State) :
  let created := Dispatch.handler ch (Dispatch.BackendDatabaseCreated username) in
  let maintenance := MaintenanceStatus "Initialising backend-database relation" in
  (is_leader ch = false ->
   created st = (Ret tt, set_unit_status maintenance st)) /\
  (is_leader ch = true -> BackendDatabaseRequires.postgres ch = Ret None ->
   created st = (Ret tt, set_deferred true (set_unit_status maintenance st))) /\
  (is_leader ch = false \/ departing <> Some (unit_name ch) ->
   BackendDatabaseRequires._on_relation_departed ch departing st = (Ret tt, st)).
Proof.
  intros created maintenance. subst created maintenance.
  split; [|split].
  - intros Hl. simpl. unfold BackendDatabaseRequires._on_database_created.
    rewrite Hl. reflexivity.
  - intros Hl Hpg. simpl. unfold BackendDatabaseRequires._on_database_created.
    rewrite Hl. unfold bind, set_status, modify, lift. simpl. rewrite Hpg. reflexivity.
  - intros H. unfold BackendDatabaseRequires._on_relation_departed.
    destruct H as [Hl|Hd].
    + rewrite Hl, orb_true_r. reflexivity.
    + rewrite bool_decide_eq_true_2 by exact Hd. reflexivity.
Qed.

(** ** The further properties on the scenarios *)


Lemma follower_join_publishes_stored_password_witness :
  published 4 "password"
    (exec (DbProvides._on_relation_joined Examples.follower true 4 "psql/0")
       Scenarios.password_shared)
  = Some Scenarios.cli_password.
Proof.
  refine (proj1 (proj2 (proj2
    (follower_join_publishes_stored_password Examples.follower true 4 "psql/0"
       Scenarios.password_shared "cli" Scenarios.cli_password _ _ _ _)))).
  - reflexivity.
  - split; [reflexivity|]. split; [discriminate|].
    exists ∅, {[ "database" := "cli" ]}. split.
    + eexists _, "psql". repeat split; reflexivity.
    + repeat split; reflexivity.
  - reflexivity.
  - discriminate.
Defined.

Lemma auth_function_once_per_database_witness :
  calls (exec (BackendDatabaseRequires.initialise_auth_function Examples.leader
                 ["cli"; "postgres"]) Examples.fresh)
  = [ConnectToDatabase "cli"; InstallAuth "cli" Scenarios.auth_role;
     ConnectToDatabase "postgres"; InstallAuth "postgres" Scenarios.auth_role].
Proof.
  destruct (auth_function_once_per_database Examples.leader Scenarios.auth_role
              ["cli"; "postgres"] Examples.fresh) as [H _].
  - split; [eexists; reflexivity | reflexivity].
  - repeat constructor.
  - repeat constructor.
  - unfold exec. rewrite H. reflexivity.
Defined.

Lemma auth_function_stops_at_first_refusal_witness :
  let ch := Scenarios.refusing (Scenarios.connection_to "postgres") Examples.leader in
  BackendDatabaseRequires.initialise_auth_function ch ["cli"; "postgres"; "other"]
    Examples.fresh
  = (Raise Psycopg2Error,
     issued [ConnectToDatabase "cli"; InstallAuth "cli" Scenarios.auth_role;
             ConnectToDatabase "postgres"] Examples.fresh).
Proof.
  refine (proj1
    (auth_function_stops_at_first_refusal
       (Scenarios.refusing (Scenarios.connection_to "postgres") Examples.leader)
       Scenarios.auth_role ["cli"] ["other"] "postgres" Examples.fresh _ _ _ _)).
  - split; [eexists; reflexivity | reflexivity].
  - repeat constructor.
  - repeat constructor.
  - reflexivity.
Defined.

Lemma leader_join_provisions_witness :
  let st' := exec (DbProvides._on_relation_joined Examples.leader true 4 "psql/0")
               Examples.fresh in
  peers_app_databag st' = {[ Examples.cli_user := "T6NX0iz1ZRHZF5kfYDanKM50" ]} /\
  published_app 4 "password" st' = Some "T6NX0iz1ZRHZF5kfYDanKM50".
Proof.
  destruct (leader_join_provisions Examples.leader true 4 "psql/0" Examples.fresh
              "cli" Scenarios.auth_role Examples.empty_config)
    as (_ & _ & _ & [_ Hpw] & _ & Hpeers & _).
  - reflexivity.
  - split; [reflexivity|]. split; [discriminate|].
    exists ∅, {[ "database" := "cli" ]}. split.
    + eexists _, "psql". repeat split; reflexivity.
    + repeat split; reflexivity.
  - split; [eexists; reflexivity | reflexivity].
  - repeat constructor.
  - reflexivity.
  - cbv zeta. split; [rewrite Hpeers; reflexivity | rewrite Hpw; reflexivity].
Defined.



Lemma teardown_aborted_by_auth_removal_witness :
  let ch := Scenarios.refusing (Scenarios.connection_to "cli") Examples.leader in
  let h := DbProvides._on_relation_broken ch true 4 in
  outcome h Scenarios.last_link = Raise Psycopg2Error /\
  pgb_config (exec h Scenarios.last_link) = Some Examples.serving_config /\
  peers_app_databag (exec h Scenarios.last_link)
    = {[ Examples.cli_user := Scenarios.cli_password ]}.
Proof.
  destruct (teardown_aborted_by_auth_removal
              (Scenarios.refusing (Scenarios.connection_to "cli") Examples.leader)
              true 4 Scenarios.last_link Examples.cli_user "cli" Scenarios.auth_role
              Examples.serving_config)
    as (Ho & Hcfg & Hp & _).
  - repeat split; reflexivity.
  - split; [eexists; reflexivity | reflexivity].
  - reflexivity.
  - reflexivity.
  - reflexivity.
  - cbv zeta. split; [exact Ho|]. split; [exact Hcfg|]. rewrite Hp. reflexivity.
Defined.

Lemma teardown_deferred_after_clearing_flag_witness :
  let h := DbProvides._on_relation_broken Examples.no_backend true 4 in
  deferred (exec h Scenarios.last_link) = true /\
  peers_app_databag (exec h Scenarios.last_link)
    = {[ Examples.cli_user := Scenarios.cli_password ]} /\
  pgb_config (exec h (exec h Scenarios.last_link)) = Some Examples.serving_config.
Proof.
  destruct (teardown_deferred_after_clearing_flag Examples.no_backend true 4
              Scenarios.last_link (Examples.client 4 "db-admin" Examples.cli_data))
    as ((_ & Hd & Hp & _) & Hcfg & _).
  - reflexivity.
  - reflexivity.
  - reflexivity.
  - left. reflexivity.
  - cbv zeta. split; [exact Hd|]. split; [rewrite Hp; reflexivity | exact Hcfg].
Defined.


Lemma connection_info_published_witness :
  published_app 4 "master"
    (exec (DbProvides.update_connection_info Examples.leader 4 (Some "7000"))
       Examples.serving)
  = Some ("host=localhost dbname=cli port=7000 user=" ++ Examples.cli_user
          ++ " password=" ++ Scenarios.cli_password
          ++ " fallback_application_name=psql").
Proof.
  destruct (connection_info_published Examples.leader 4 (Some "7000") Examples.serving
              "cli" Examples.cli_user Scenarios.cli_password "psql")
    as (_ & _ & _ & _ & Hl).
  - repeat split; try reflexivity; [discriminate|].
    eexists _, _. split; reflexivity.
  - destruct (Hl eq_refl) as [Hm _]. rewrite Hm. reflexivity.
Defined.

Lemma changed_keeps_credentials_witness :
  published 4 "password"
    (exec (DbProvides._on_relation_changed Examples.leader true 4) Examples.serving)
  = Some Scenarios.cli_password.
Proof.
  rewrite (changed_keeps_credentials Examples.leader true 4 Examples.serving "password").
  - reflexivity.
  - right. left.
Defined.

Lemma changed_not_ready_defers_witness :
  let h := DbProvides._on_relation_changed Examples.leader true 4 in
  deferred (exec h Examples.fresh) = true /\
  relations (exec h Examples.fresh) = relations Examples.fresh.
Proof.
  destruct (changed_not_ready_defers Examples.leader true 4 Examples.fresh
              (Examples.client 4 "db-admin" ∅))
    as (_ & Hd & Hr & _).
  - reflexivity.
  - right. left. reflexivity.
  - cbv zeta. split; [exact Hd | exact Hr].
Defined.

Lemma auth_user_follows_postgres_witness :
  BackendDatabaseRequires.auth_user Examples.leader = Ret (Some Scenarios.auth_role).
Proof.
  destruct (auth_user_follows_postgres Examples.leader
              {| pg_host := "10.180.162.236"; pg_user := "relation-3";
                 pg_password := "yPEgUWCYX0SBxpvC"; pg_database := "pgbouncer" |})
    as (role & Hau & Hrole & _).
  - reflexivity.
  - rewrite Hau, Hrole. reflexivity.
Defined.

Lemma database_created_bootstraps_auth_witness :
  let st' := exec (Dispatch.handler Examples.leader
                     (Dispatch.BackendDatabaseCreated "relation-3")) Examples.fresh in
  (pgbouncer <$> pgb_config st')
    = Some (<["auth_file" := "/var/lib/postgresql/pgbouncer/userlist.txt"]>
            (<["auth_query" :=
                 "SELECT username, password FROM pgbouncer_auth_relation_3.get_auth($1)"]>
             {[ "listen_port" := "6432" ]})) /\
  (users <$> pgb_config st') = Some {[ "relation-3" := true ]}.
Proof.
  destruct (database_created_bootstraps_auth Examples.leader "relation-3"
              Scenarios.auth_role Examples.fresh Examples.empty_config)
    as (_ & _ & Hu & Hq & _).
  - reflexivity.
  - split; [eexists; reflexivity | reflexivity].
  - repeat constructor.
  - reflexivity.
  - cbv zeta. rewrite Hu, Hq. split; reflexivity.
Defined.

Lemma database_created_without_config_witness :
  let h := Dispatch.handler Examples.leader (Dispatch.BackendDatabaseCreated "relation-3") in
  outcome h Scenarios.unconfigured = Raise FileNotFoundError /\
  generated (exec h Scenarios.unconfigured) = 1%nat /\
  pgb_config (exec h Scenarios.unconfigured) = None.
Proof.
  destruct (database_created_without_config Examples.leader "relation-3"
              Scenarios.auth_role Scenarios.unconfigured)
    as (Ho & _ & _ & Hg & Hc & _).
  - reflexivity.
  - split; [eexists; reflexivity | reflexivity].
  - repeat constructor.
  - reflexivity.
  - cbv zeta. split; [exact Ho|]. split; [exact Hg | exact Hc].
Defined.

Lemma backend_departed_removes_role_witness :
  BackendDatabaseRequires._on_relation_departed Examples.leader (Some "pgbouncer/0")
    Examples.serving
  = (Ret tt,
     issued [ConnectToDatabase "pgbouncer"; RemoveAuth "pgbouncer" Scenarios.auth_role;
             ConnectToDatabase "postgres"; RemoveAuth "postgres" Scenarios.auth_role;
             DeleteUser (Some Scenarios.auth_role)] Examples.serving).
Proof.
  refine (backend_departed_removes_role Examples.leader Scenarios.auth_role
            Examples.serving _ _ _).
  - reflexivity.
  - split; [eexists; reflexivity | reflexivity].
  - repeat constructor.
Defined.


Lemma backend_broken_keeps_routes_witness :
  (databases <$> pgb_config (exec (BackendDatabaseRequires._on_relation_broken Examples.leader)
                               Examples.serving))
  = Some (databases Examples.serving_config).
Proof.
  destruct (backend_broken_keeps_routes Examples.leader Examples.serving
              Examples.serving_config) as [H _].
  - reflexivity.
  - destruct (H {| pg_host := "10.180.162.236"; pg_user := "relation-3";
                   pg_password := "yPEgUWCYX0SBxpvC"; pg_database := "pgbouncer" |}
                eq_refl) as (_ & Hd & _).
    exact Hd.
Defined.

Lemma allowed_units_sorted_once_witness :
  outcome (DbProvides.get_allowed_units Examples.leader 6) Scenarios.crowd
  = Ret "psql/0,psql/1".
Proof.
  destruct (allowed_units_sorted_once Examples.leader 6 Scenarios.crowd Scenarios.crowded)
    as (H & _).
  - reflexivity.
  - unfold outcome. rewrite H. reflexivity.
Defined.





Lemma connection_info_writes_three_keys_witness :
  let h := DbProvides.update_connection_info Examples.leader 4 None in
  published 4 "user" (exec h Examples.serving) = Some Examples.cli_user /\
  exec h Examples.fresh = Examples.fresh.
Proof.
  destruct (connection_info_writes_three_keys Examples.leader 4 None Examples.serving)
    as (Hk & _).
  destruct (connection_info_writes_three_keys Examples.leader 4 None Examples.fresh)
    as (_ & _ & _ & Hf).
  assert (Hn : "user" ∉ connection_keys).
  { unfold connection_keys. rewrite !not_elem_of_cons.
    repeat split; [discriminate..|apply not_elem_of_nil]. }
  cbv zeta. split.
  - rewrite (proj1 (Hk "user" Hn)). reflexivity.
  - apply Hf. left. reflexivity.
Defined.

Lemma backend_handlers_guarded_witness :
  unit_status
    (exec (Dispatch.handler Examples.follower (Dispatch.BackendDatabaseCreated "relation-3"))
       Examples.serving)
  = MaintenanceStatus "Initialising backend-database relation" /\
  exec (BackendDatabaseRequires._on_relation_departed Examples.leader (Some "pgbouncer/1"))
    Examples.serving
  = Examples.serving.
Proof.
  destruct (backend_handlers_guarded Examples.follower "relation-3" None Examples.serving)
    as (Hc & _).
  destruct (backend_handlers_guarded Examples.leader "relation-3" (Some "pgbouncer/1")
              Examples.serving) as (_ & _ & Hd).
  unfold exec. rewrite (Hc eq_refl), Hd; [split; reflexivity|].
  right. discriminate.
Defined.
